(** * IT Ticketing System API: a shallow embedding of [main.py] and [schemas.py]

    The request handlers of [main.py] are embedded as functions in a small
    state-and-exception monad over the document store; the pydantic models of
    [schemas.py] are records with their validators.  Documents are Python
    dicts, modelled as finite maps from field names to values. *)

From Stdlib Require Import ZArith NArith Ascii String.
From stdpp Require Import base option list gmap strings pretty sorting.

Local Open Scope string_scope.
Local Open Scope N_scope.

(** ** Values stored in documents and returned in JSON bodies *)

Inductive value :=
  | VNone
  | VBool (b : bool)
  | VStr (s : string)
  | VObjectId (o : N)
  | VObjectIdShort (n : nat) (o : N)
  | VDatetime (t : Z).

#[global] Instance value_eq_dec : EqDecision value.
Proof. solve_decision. Defined.

(** A Python dict with string keys. *)
Abbreviation dict := (gmap string value).

(** ** Python strings *)

(** A Python [str] is a sequence of code points; the Rocq string holds its
    UTF-8 bytes.  [len] counts the code points: the bytes that do not
    continue a character. *)
Definition is_continuation (c : ascii) : bool :=
  let n := N_of_ascii c in (128 <=? n) && (n <? 192).

Fixpoint len (s : string) : nat :=
  match s with
  | "" => O
  | String c s' => ((if is_continuation c then 0 else 1) + len s')%nat
  end.

(** ** [bson.ObjectId]: a 12-byte key, written as 24 hexadecimal digits *)

(** A stored [_id] is [VObjectId o], the 12 bytes read as a number.
    [VObjectIdShort n o] is an ObjectId that holds only [n] bytes: the
    constructor checks the length of the string and then calls
    [bytes.fromhex], which skips whitespace, so a string of 24 characters
    with whitespace in it yields fewer than 12 bytes. *)

Definition hex_digit (n : N) : ascii :=
  match n with
  | 0 => "0" | 1 => "1" | 2 => "2" | 3 => "3" | 4 => "4" | 5 => "5"
  | 6 => "6" | 7 => "7" | 8 => "8" | 9 => "9" | 10 => "a" | 11 => "b"
  | 12 => "c" | 13 => "d" | 14 => "e" | _ => "f"
  end%char.

Definition hex_value (c : ascii) : option N :=
  let n := N_of_ascii c in
  if (48 <=? n) && (n <=? 57) then Some (n - 48)
  else if (97 <=? n) && (n <=? 102) then Some (n - 87)
  else if (65 <=? n) && (n <=? 70) then Some (n - 55)
  else None.

(** ASCII whitespace: tab, line feed, vertical tab, form feed, carriage
    return and space. *)
Definition is_space (c : ascii) : bool :=
  let n := N_of_ascii c in ((9 <=? n) && (n <=? 13)) || (n =? 32).

(** [hexlify k o]: the [k] low hexadecimal digits of [o], most significant
    first, in lower case. *)
Fixpoint hexlify (k : nat) (o : N) : string :=
  match k with
  | O => ""
  | S k' => hexlify k' (o / 16) +:+ String (hex_digit (o mod 16)) ""
  end.

(** [bytes.fromhex(s)]: whitespace before a byte is skipped, then two
    hexadecimal digits of either case make one byte; anything else is a
    [ValueError] ([None]).  The result is the number of bytes and their
    value. *)
Fixpoint fromhex (s : string) (n : nat) (acc : N) : option (nat * N) :=
  match s with
  | "" => Some (n, acc)
  | String c s' =>
      if is_space c then fromhex s' n acc
      else
        match hex_value c, s' with
        | Some top, String c' s'' =>
            match hex_value c' with
            | Some bot => fromhex s'' (S n) (256 * acc + (16 * top + bot))
            | None => None
            end
        | _, _ => None
        end
  end.

(** [str(oid)] for an ObjectId of 12 bytes. *)
Definition str_oid (o : N) : string := hexlify 24 o.

(** [ObjectId(s)] for a [str] argument: [None] stands for [InvalidId],
    raised when [len(s) != 24] or [bytes.fromhex] fails. *)
Definition ObjectId (s : string) : option value :=
  if (len s =? 24)%nat then
    match fromhex s 0 0 with
    | Some (n, o) => Some (if (n =? 12)%nat then VObjectId o else VObjectIdShort n o)
    | None => None
    end
  else None.

(** ** Exceptions and results *)

Inductive exn :=
  | HTTPException (status_code : nat) (detail : string)
  | InvalidId (oid : string)
  | TypeError (msg : string)
  | KeyError (key : string)
  | StoreUnavailable.

(** [str(e)].  The message of [InvalidId] shows [repr] of the id, written
    here for an id without quotes, backslashes or unprintable characters. *)
Definition str_exn (e : exn) : string :=
  match e with
  | HTTPException status_code detail => pretty status_code +:+ ": " +:+ detail
  | InvalidId oid =>
      "'" +:+ oid +:+
      "' is not a valid ObjectId, it must be a 12-byte input or a 24-character hex string"
  | TypeError msg => msg
  | KeyError key => "'" +:+ key +:+ "'"
  | StoreUnavailable => "Database not available"
  end.

Inductive result (A : Type) :=
  | Return (a : A)
  | Raise (e : exn).
Arguments Return {A} a.
Arguments Raise {A} e.

(** ** The document store *)

(** A database holds named collections, each a sequence of documents in
    insertion order, and the source of fresh [_id]s. *)
Record Database := {
  collections : gmap string (list dict);
  next_id : N
}.

(** [db[name]]: a collection that was never written to is empty. *)
Definition collection (d : Database) (name : string) : list dict :=
  default [] (collections d !! name).

(** The module-level handle [db] of [database.py]: [None] when no connection
    was opened. *)
Definition Store := option Database.

(** Handlers run in a state-and-exception monad over the handle. *)
Definition M (A : Type) : Type := Store → result A * Store.

Definition ret {A} (a : A) : M A := λ st, (Return a, st).
Definition raise {A} (e : exn) : M A := λ st, (Raise e, st).
Definition bind {A B} (m : M A) (f : A → M B) : M B :=
  λ st, match m st with
        | (Return a, st') => f a st'
        | (Raise e, st') => (Raise e, st')
        end.
Definition lift {A} (r : result A) : M A := λ st, (r, st).

Notation "'let*' x ':=' m 'in' k" := (bind m (λ x, k))
  (at level 10, x pattern, m at level 100, k at level 200, only parsing).

(** [try: body except Exception as e: raise HTTPException(500, str(e))] *)
Definition except_Exception {A} (body : M A) : M A :=
  λ st, match body st with
        | (Raise e, st') => (Raise (HTTPException 500 (str_exn e)), st')
        | r => r
        end.

(** [try: body except HTTPException: raise
     except Exception as e: raise HTTPException(500, str(e))] *)
Definition except_HTTPException_reraise {A} (body : M A) : M A :=
  λ st, match body st with
        | (Raise (HTTPException c d), st') => (Raise (HTTPException c d), st')
        | (Raise e, st') => (Raise (HTTPException 500 (str_exn e)), st')
        | r => r
        end.

(** [db[name]] on the handle; subscripting [None] is a [TypeError]. *)
Definition db_collection (name : string) : M (list dict) :=
  λ st, match st with
        | Some d => (Return (collection d name), st)
        | None => (Raise (TypeError "'NoneType' object is not subscriptable"), st)
        end.

(** An equality filter matches a document that carries every binding of the
    filter. *)
Definition matches (flt d : dict) : bool := bool_decide (flt ⊆ d).

(** [coll.find(flt)], in natural (insertion) order. *)
Definition find (flt : dict) (coll : list dict) : list dict :=
  List.filter (matches flt) coll.

(** [coll.find_one(flt)] *)
Definition find_one (flt : dict) (coll : list dict) : option dict :=
  head (find flt coll).

(** [{"$set": to_set}] applied to one document. *)
Definition set_fields (to_set d : dict) : dict := to_set ∪ d.

(** [coll.find_one_and_update(flt, {"$set": to_set}, return_document=True)]:
    the first match is updated in place; the result is the document after
    the update, with the new collection. *)
Fixpoint find_one_and_update (flt to_set : dict) (coll : list dict)
  : option dict * list dict :=
  match coll with
  | [] => (None, [])
  | d :: rest =>
      if matches flt d then (Some (set_fields to_set d), set_fields to_set d :: rest)
      else let '(r, rest') := find_one_and_update flt to_set rest in (r, d :: rest')
  end.

(** The same call on the handle: the collection is written only when a
    document matched. *)
Definition db_find_one_and_update (name : string) (flt to_set : dict)
  : M (option dict) :=
  λ st, match st with
        | Some d =>
            match find_one_and_update flt to_set (collection d name) with
            | (Some r, coll') =>
                (Return (Some r),
                 Some {| collections := <[name := coll']> (collections d);
                         next_id := next_id d |})
            | (None, _) => (Return None, st)
            end
        | None => (Raise (TypeError "'NoneType' object is not subscriptable"), st)
        end.

(** The sort key of [cursor.sort("created_at", 1)]: dates are ordered by
    time, and a document whose field is missing or not a date comes before
    every date.  Among the documents without a date the store orders
    further by the type and the value of the field, and between documents
    of equal key it promises no order; [field_le] leaves both open, and the
    properties below use of [sort_ascending] only that its result is a
    rearrangement of the list in ascending order. *)
Definition sort_key (field : string) (d : dict) : option Z :=
  match d !! field with
  | Some (VDatetime t) => Some t
  | _ => None
  end.

Definition key_le (a b : option Z) : Prop :=
  match a, b with
  | None, _ => True
  | Some _, None => False
  | Some x, Some y => (x ≤ y)%Z
  end.

Definition field_le (field : string) (a b : dict) : Prop :=
  key_le (sort_key field a) (sort_key field b).

#[global] Instance key_le_dec a b : Decision (key_le a b).
Proof. destruct a, b; simpl; apply _. Defined.

#[global] Instance field_le_dec field : RelDecision (field_le field).
Proof. intros a b. unfold field_le. apply _. Defined.

(** [cursor.sort(field, 1)] *)
Definition sort_ascending (field : string) (l : list dict) : list dict :=
  merge_sort (field_le field) l.

(** ** [schemas.py]: the pydantic models *)

(** A JSON value of a request body, as far as the validators tell values
    apart. *)
Inductive json :=
  | JNull
  | JBool (b : bool)
  | JNumber (z : Z)
  | JString (s : string).

(** A body is a JSON object; keys that a model does not declare are ignored. *)
Abbreviation body := (gmap string json).

Inductive Priority := low | medium | high | urgent.
Inductive Status := open | in_progress | resolved | closed.

Definition Priority_str (p : Priority) : string :=
  match p with
  | low => "low" | medium => "medium" | high => "high" | urgent => "urgent"
  end.

Definition Status_str (s : Status) : string :=
  match s with
  | open => "open" | in_progress => "in_progress"
  | resolved => "resolved" | closed => "closed"
  end.

Definition Priority_of (s : string) : option Priority :=
  if String.eqb s "low" then Some low
  else if String.eqb s "medium" then Some medium
  else if String.eqb s "high" then Some high
  else if String.eqb s "urgent" then Some urgent
  else None.

Definition Status_of (s : string) : option Status :=
  if String.eqb s "open" then Some open
  else if String.eqb s "in_progress" then Some in_progress
  else if String.eqb s "resolved" then Some resolved
  else if String.eqb s "closed" then Some closed
  else None.

(** [Field(..., min_length=lo, max_length=hi)] on a [str]: the bounds are
    on the number of characters. *)
Definition constrained_str (lo : nat) (hi : option nat) (s : string) : option string :=
  if (lo <=? len s)%nat
     && match hi with Some h => (len s <=? h)%nat | None => true end
  then Some s else None.

(** A required field of type [T]: the key must be present and hold a string
    that the validator of [T] accepts. *)
Definition required {T} (v : string → option T) (j : option json) : option T :=
  match j with
  | Some (JString s) => v s
  | _ => None
  end.

(** A field [T = default]. *)
Definition with_default {T} (v : string → option T) (dflt : T) (j : option json) : option T :=
  match j with
  | None => Some dflt
  | Some (JString s) => v s
  | Some _ => None
  end.

(** A field [Optional[T] = None]. *)
Definition optional {T} (v : string → option T) (j : option json) : option (option T) :=
  match j with
  | None | Some JNull => Some None
  | Some (JString s) => Some <$> v s
  | Some _ => None
  end.

(** A field of a partial model: pydantic records which fields the body set,
    and a field may be set to [None]. *)
Inductive field (T : Type) :=
  | Unset
  | Given (v : option T).
Arguments Unset {T}.
Arguments Given {T} v.

Definition partial {T} (v : string → option T) (j : option json) : option (field T) :=
  match j with
  | None => Some Unset
  | Some JNull => Some (Given None)
  | Some (JString s) => (λ x, Given (Some x)) <$> v s
  | Some _ => None
  end.

Definition dump_optional (o : option string) : value :=
  match o with Some s => VStr s | None => VNone end.

(** One key of [model_dump(exclude_unset=True)]. *)
Definition dump_field {T} (str : T → string) (key : string) (f : field T) (d : dict) : dict :=
  match f with
  | Unset => d
  | Given o => <[key := dump_optional (str <$> o)]> d
  end.

Module Ticket.
(** [class Ticket(BaseModel)] *)
Record model := {
  title : string;
  description : string;
  requester_email : string;
  category : string;
  priority : Priority;
  status : Status;
  assignee : option string
}.

Section Validation.
(** [EmailStr]: the validator of the email-validator package, which
    yields the validated address or rejects the string. *)
Variable EmailStr : string → option string.

(** Construction of the model from a request body; [None] is a
    validation error (HTTP 422). *)
Definition validate (b : body) : option model :=
  t ← required (constrained_str 3 (Some 200%nat)) (b !! "title");
  d ← required (constrained_str 5 None) (b !! "description");
  e ← required EmailStr (b !! "requester_email");
  c ← required Some (b !! "category");
  p ← with_default Priority_of medium (b !! "priority");
  s ← with_default Status_of open (b !! "status");
  a ← optional Some (b !! "assignee");
  Some {| title := t; description := d; requester_email := e;
          category := c; priority := p; status := s; assignee := a |}.
End Validation.

Definition model_dump (m : model) : dict :=
  {[ "title" := VStr (title m);
     "description" := VStr (description m);
     "requester_email" := VStr (requester_email m);
     "category" := VStr (category m);
     "priority" := VStr (Priority_str (priority m));
     "status" := VStr (Status_str (status m));
     "assignee" := dump_optional (assignee m) ]}.
End Ticket.

Module TicketUpdate.
(** [class TicketUpdate(BaseModel)]: every field is [Optional[...] = None]
    and carries no length constraint. *)
Record model := {
  title : field string;
  description : field string;
  requester_email : field string;
  category : field string;
  priority : field Priority;
  status : field Status;
  assignee : field string
}.

Section Validation.
Variable EmailStr : string → option string.

Definition validate (b : body) : option model :=
  t ← partial Some (b !! "title");
  d ← partial Some (b !! "description");
  e ← partial EmailStr (b !! "requester_email");
  c ← partial Some (b !! "category");
  p ← partial Priority_of (b !! "priority");
  s ← partial Status_of (b !! "status");
  a ← partial Some (b !! "assignee");
  Some {| title := t; description := d; requester_email := e;
          category := c; priority := p; status := s; assignee := a |}.
End Validation.

(** [updates.model_dump(exclude_unset=True)] *)
Definition model_dump_exclude_unset (m : model) : dict :=
  dump_field id "title" (title m)
    (dump_field id "description" (description m)
      (dump_field id "requester_email" (requester_email m)
        (dump_field id "category" (category m)
          (dump_field Priority_str "priority" (priority m)
            (dump_field Status_str "status" (status m)
              (dump_field id "assignee" (assignee m) ∅)))))).
End TicketUpdate.

Module Comment.
(** [class Comment(BaseModel)] *)
Record model := {
  ticket_id : string;
  author : string;
  body : string
}.

Definition validate (b : gmap string json) : option model :=
  t ← required Some (b !! "ticket_id");
  a ← required Some (b !! "author");
  c ← required (constrained_str 1 None) (b !! "body");
  Some {| ticket_id := t; author := a; body := c |}.

Definition model_dump (m : model) : dict :=
  {[ "ticket_id" := VStr (ticket_id m);
     "author" := VStr (author m);
     "body" := VStr (body m) ]}.
End Comment.

(** ** [database.py] *)

(** Modelled from the spec: [database.py], which defines [create_document],
    is not among the sources.  "create(collection, payload) -> id: inserts a
    new record, stamping created_at and updated_at with the current UTC time;
    returns the generated identifier as a string.  Fails with
    StoreUnavailable if no live connection exists."  The store assigns the
    fresh [_id]; [now] is the reading of the clock. *)
Definition create_document (collection_name : string) (data : dict) (now : Z)
  : M string :=
  λ st, match st with
        | None => (Raise StoreUnavailable, st)
        | Some d =>
            let oid := next_id d in
            let doc := <["_id" := VObjectId oid]>
                         (<["updated_at" := VDatetime now]>
                           (<["created_at" := VDatetime now]> data)) in
            (Return (str_oid oid),
             Some {| collections :=
                       <[collection_name := (collection d collection_name ++ [doc])%list]>
                         (collections d);
                     next_id := N.succ oid |})
        end.

(** Modelled from the spec: [get_documents] of the missing [database.py].
    "list(collection, filter: mapping of field to exact-match value) ->
    sequence of record: returns all matching records ... equality filtering
    only ... Order is insertion order". *)
Definition get_documents (collection_name : string) (filter_dict : dict)
  : M (list dict) :=
  λ st, match st with
        | None => (Raise StoreUnavailable, st)
        | Some d => (Return (find filter_dict (collection d collection_name)), st)
        end.


(** ** [main.py]: the request handlers *)

(** [d.pop(key)] *)
Definition pop (key : string) (d : dict) : result (value * dict) :=
  match d !! key with
  | Some v => Return (v, delete key d)
  | None => Raise (KeyError key)
  end.

(** [not doc]: [None] and the empty dict are falsy. *)
Definition falsy (doc : option dict) : bool :=
  match doc with
  | None => true
  | Some d => bool_decide (d = ∅)
  end.

(** [if status:] on an optional query parameter. *)
Definition truthy (q : option string) : bool :=
  match q with
  | None | Some "" => false
  | Some _ => true
  end.

Fixpoint for_each {A B} (f : A → result B) (l : list A) : result (list B) :=
  match l with
  | [] => Return []
  | a :: l' =>
      match f a with
      | Raise e => Raise e
      | Return b =>
          match for_each f l' with
          | Raise e => Raise e
          | Return bs => Return (b :: bs)
          end
      end
  end.

Definition ObjectId_or_raise (s : string) : M value :=
  match ObjectId s with
  | Some o => ret o
  | None => raise (InvalidId s)
  end.

Section Handlers.
(** [datetime.isoformat(sep)]: the rendering of a timestamp, left to the
    datetime library. *)
Variable isoformat : ascii → Z → string.

(** [str(v)] *)
Definition py_str (v : value) : string :=
  match v with
  | VNone => "None"
  | VBool true => "True"
  | VBool false => "False"
  | VStr s => s
  | VObjectId o => str_oid o
  | VObjectIdShort n o => hexlify (2 * n) o
  | VDatetime t => isoformat " " t
  end.

(** [if key in d and hasattr(d[key], "isoformat"):
       d[key] = d[key].isoformat()] *)
Definition isoformat_field (key : string) (d : dict) : dict :=
  match d !! key with
  | Some (VDatetime t) => <[key := VStr (isoformat "T" t)]> d
  | _ => d
  end.

(** The conversion every handler applies to a document it returns:
    [d["id"] = str(d.pop("_id"))], then the two timestamps. *)
Definition convert (d : dict) : result dict :=
  match pop "_id" d with
  | Raise e => Raise e
  | Return (v, d') =>
      Return (isoformat_field "updated_at"
               (isoformat_field "created_at" (<["id" := VStr (py_str v)]> d')))
  end.

(** [POST /api/tickets]; [create_document] is handed the model and stores
    its dump. *)
Definition create_ticket (payload : Ticket.model) (now : Z) : M dict :=
  except_Exception
    (let* ticket_id := create_document "ticket" (Ticket.model_dump payload) now in
     ret {[ "id" := VStr ticket_id ]}).

(** [GET /api/tickets] *)
Definition list_tickets (status priority : option string) : M (list dict) :=
  except_Exception
    (let filter_dict : dict := ∅ in
     let filter_dict :=
       if truthy status then <["status" := VStr (default "" status)]> filter_dict
       else filter_dict in
     let filter_dict :=
       if truthy priority then <["priority" := VStr (default "" priority)]> filter_dict
       else filter_dict in
     let* docs := get_documents "ticket" filter_dict in
     lift (for_each convert docs)).

(** [GET /api/tickets/{ticket_id}]: the ticket and its [comments] array. *)
Definition get_ticket (ticket_id : string) : M (dict * list dict) :=
  except_HTTPException_reraise
    (let* tickets := db_collection "ticket" in
     let* oid := ObjectId_or_raise ticket_id in
     let doc := find_one {[ "_id" := oid ]} tickets in
     if falsy doc then raise (HTTPException 404 "Ticket not found")
     else
       let* doc := lift (convert (default ∅ doc)) in
       let* all_comments := db_collection "comment" in
       let comments :=
         sort_ascending "created_at"
           (find {[ "ticket_id" := VStr ticket_id ]} all_comments) in
       let* comments := lift (for_each convert comments) in
       ret (doc, comments)).

(** [PATCH /api/tickets/{ticket_id}] *)
Definition update_ticket (ticket_id : string) (updates : TicketUpdate.model)
    (now : Z) : M dict :=
  except_HTTPException_reraise
    (let to_set := TicketUpdate.model_dump_exclude_unset updates in
     if bool_decide (to_set = ∅)
     then ret {[ "id" := VStr ticket_id; "updated" := VBool false ]}
     else
       let to_set := <["updated_at" := VDatetime now]> to_set in
       let* _ := db_collection "ticket" in
       let* oid := ObjectId_or_raise ticket_id in
       let* result :=
         db_find_one_and_update "ticket" {[ "_id" := oid ]} to_set in
       if falsy result then raise (HTTPException 404 "Ticket not found")
       else lift (convert (default ∅ result))).

(** [POST /api/tickets/{ticket_id}/comments] *)
Definition add_comment (ticket_id : string) (payload : Comment.model)
    (now : Z) : M dict :=
  except_HTTPException_reraise
    (let* tickets := db_collection "ticket" in
     let* oid := ObjectId_or_raise ticket_id in
     if falsy (find_one {[ "_id" := oid ]} tickets)
     then raise (HTTPException 404 "Ticket not found")
     else
       let* comment_id :=
         create_document "comment"
           (<["ticket_id" := VStr ticket_id]> (Comment.model_dump payload)) now in
       ret {[ "id" := VStr comment_id ]}).

(** [GET /api/tickets/{ticket_id}/comments] *)
Definition list_comments (ticket_id : string) : M (list dict) :=
  except_Exception
    (let* comments := get_documents "comment" {[ "ticket_id" := VStr ticket_id ]} in
     lift (for_each convert comments)).
End Handlers.

(** The status code that FastAPI sends for the outcome of a handler. *)
Definition status_code {A} (r : result A) : nat :=
  match r with
  | Return _ => 200
  | Raise (HTTPException c _) => c
  | Raise _ => 500
  end%nat.

Definition client_error (c : nat) : Prop := (400 ≤ c < 500)%nat.
Definition server_error (c : nat) : Prop := (500 ≤ c < 600)%nat.

(** ** The public endpoints: validation, then the handler *)

Inductive request :=
  | POST_tickets (b : body)
  | GET_tickets (status priority : option string)
  | GET_ticket (ticket_id : string)
  | PATCH_ticket (ticket_id : string) (b : body)
  | POST_comments (ticket_id : string) (b : body)
  | GET_comments (ticket_id : string).

Section Endpoints.
Variable EmailStr : string → option string.
Variable isoformat : ascii → Z → string.

Definition answer {A} (r : result A * Store) : nat * Store :=
  (status_code (fst r), snd r).

(** One request served at clock reading [now]: a body that fails
    validation is answered 422 and the handler does not run. *)
Definition serve (r : request) (now : Z) (st : Store) : nat * Store :=
  match r with
  | POST_tickets b =>
      match Ticket.validate EmailStr b with
      | Some payload => answer (create_ticket payload now st)
      | None => (422%nat, st)
      end
  | GET_tickets status priority => answer (list_tickets isoformat status priority st)
  | GET_ticket ticket_id => answer (get_ticket isoformat ticket_id st)
  | PATCH_ticket ticket_id b =>
      match TicketUpdate.validate EmailStr b with
      | Some updates => answer (update_ticket isoformat ticket_id updates now st)
      | None => (422%nat, st)
      end
  | POST_comments ticket_id b =>
      match Comment.validate b with
      | Some payload => answer (add_comment ticket_id payload now st)
      | None => (422%nat, st)
      end
  | GET_comments ticket_id => answer (list_comments isoformat ticket_id st)
  end.

(** A sequence of requests, each with its clock reading. *)
Fixpoint serve_all (trace : list (request * Z)) (st : Store) : Store :=
  match trace with
  | [] => st
  | (r, now) :: trace' => serve_all trace' (snd (serve r now st))
  end.
End Endpoints.

(** A connected store with no document. *)
Definition empty_database : Database := {| collections := ∅; next_id := 0 |}.
Definition empty_store : Store := Some empty_database.

(** The value a handler returned, if it did not raise. *)
Definition returned {A} (r : result A) : option A :=
  match r with
  | Return a => Some a
  | Raise _ => None
  end.

(** The collections behind the handle; none when there is no connection. *)
Definition tickets_of (st : Store) : list dict :=
  from_option (λ d, collection d "ticket") [] st.
Definition comments_of (st : Store) : list dict :=
  from_option (λ d, collection d "comment") [] st.

(** ** Predicates of the specification *)

(** The constraints of the data model on a stored ticket. *)
Definition string_field (d : dict) (key : string) : option string :=
  match d !! key with
  | Some (VStr s) => Some s
  | _ => None
  end.

Definition title_ok (d : dict) : Prop :=
  ∃ s, string_field d "title" = Some s ∧ (3 ≤ len s ≤ 200)%nat.

(** The tickets that a listing with the given query parameters is to
    return: a parameter that is absent (or empty) constrains nothing. *)
Definition field_is (key : string) (q : option string) (d : dict) : Prop :=
  match q with
  | None | Some "" => True
  | Some s => d !! key = Some (VStr s)
  end.

#[global] Instance field_is_dec key q d : Decision (field_is key q d).
Proof. destruct q as [[|c s]|]; simpl; apply _. Defined.

Definition selected (status priority : option string) (d : dict) : Prop :=
  field_is "status" status d ∧ field_is "priority" priority d.

#[global] Instance selected_dec status priority d : Decision (selected status priority d).
Proof. unfold selected. apply _. Defined.

(** Every document of a collection carries an [_id], as the store
    guarantees. *)
Definition has_id (d : dict) : Prop := is_Some (d !! "_id").

(** The invariant of the store: every document carries an ObjectId that
    was handed out before the next fresh one. *)
Definition well_formed (d : Database) : Prop :=
  ∀ name doc,
    doc ∈ collection d name →
    ∃ o, doc !! "_id" = Some (VObjectId o) ∧ o < next_id d.

(** A computation keeps the invariant when it leaves a connected,
    well-formed store connected and well-formed. *)
Definition preserves {A} (m : M A) : Prop :=
  ∀ d, well_formed d → ∃ d', snd (m (Some d)) = Some d' ∧ well_formed d'.

(** The JSON object a handler returns for a document that has an [_id]. *)
Definition as_json (isoformat : ascii → Z → string) (d : dict) : dict :=
  isoformat_field isoformat "updated_at"
    (isoformat_field isoformat "created_at"
      (<["id" := VStr (py_str isoformat (default VNone (d !! "_id")))]>
        (delete "_id" d))).

(** The ticket that a lookup by [_id] finds: the first document of the
    collection with that [_id]. *)
Definition ticket_at (coll : list dict) (o : N) (t : dict) : Prop :=
  ∃ before after,
    coll = (before ++ t :: after)%list
    ∧ t !! "_id" = Some (VObjectId o)
    ∧ Forall (λ d, d !! "_id" ≠ Some (VObjectId o)) before.

(** The document that [add_comment] stores: the dump of the payload with
    [ticket_id] replaced by the id of the path, stamped by the store. *)
Definition stored_comment (ticket_id : string) (payload : Comment.model)
    (now : Z) (oid : N) : dict :=
  <["_id" := VObjectId oid]>
    (<["updated_at" := VDatetime now]>
      (<["created_at" := VDatetime now]>
        {[ "ticket_id" := VStr ticket_id;
           "author" := VStr (Comment.author payload);
           "body" := VStr (Comment.body payload) ]})).

(** The update that a body without any field of the model validates to. *)
Definition empty_update : TicketUpdate.model :=
  {| TicketUpdate.title := Unset; TicketUpdate.description := Unset;
     TicketUpdate.requester_email := Unset; TicketUpdate.category := Unset;
     TicketUpdate.priority := Unset; TicketUpdate.status := Unset;
     TicketUpdate.assignee := Unset |}.

(** The update that the body [{"status": s}] validates to. *)
Definition status_update (s : Status) : TicketUpdate.model :=
  {| TicketUpdate.title := Unset; TicketUpdate.description := Unset;
     TicketUpdate.requester_email := Unset; TicketUpdate.category := Unset;
     TicketUpdate.priority := Unset; TicketUpdate.status := Given (Some s);
     TicketUpdate.assignee := Unset |}.

(** An outcome is a response, or an [HTTPException] whose status code is
    one of the given ones; no other exception escapes. *)
Definition answers {A} (codes : list nat) (r : result A) : Prop :=
  match r with
  | Return _ => True
  | Raise (HTTPException c _) => c ∈ codes
  | Raise _ => False
  end.

(** The document that [create_ticket] stores: the dump of the payload,
    stamped by the store. *)
Definition stored_ticket (payload : Ticket.model) (now : Z) (oid : N) : dict :=
  <["_id" := VObjectId oid]>
    (<["updated_at" := VDatetime now]>
      (<["created_at" := VDatetime now]> (Ticket.model_dump payload))).

(** Every comment refers, by a string that parses, to a ticket of the
    store. *)
Definition no_orphans (d : Database) : Prop :=
  ∀ c, c ∈ collection d "comment" →
    ∃ s o t,
      c !! "ticket_id" = Some (VStr s)
      ∧ ObjectId s = Some (VObjectId o)
      ∧ t ∈ collection d "ticket"
      ∧ t !! "_id" = Some (VObjectId o).

(** ** A concrete instance of the library functions, to run the model *)

Module Sample.
(** A stand-in for the email validator: an address has an [@]. *)
Fixpoint has_at (s : string) : bool :=
  match s with
  | "" => false
  | String c s' => Ascii.eqb c "@" || has_at s'
  end.

Definition EmailStr (s : string) : option string :=
  if has_at s then Some s else None.

(** A stand-in for the date rendering: the separator and a tick count. *)
Fixpoint ticks (n : nat) : string :=
  match n with
  | O => ""
  | S n' => String "I" (ticks n')
  end.

Definition isoformat (sep : ascii) (t : Z) : string :=
  String sep (ticks (Z.to_nat t)).

(** A creation body that passes validation, and the model it yields. *)
Definition printer : body :=
  {[ "title" := JString "Printer jam";
     "description" := JString "Tray 2 jams on every page";
     "requester_email" := JString "kim@example.org";
     "category" := JString "Hardware" ]}.

Definition printer_ticket : Ticket.model :=
  {| Ticket.title := "Printer jam";
     Ticket.description := "Tray 2 jams on every page";
     Ticket.requester_email := "kim@example.org";
     Ticket.category := "Hardware";
     Ticket.priority := medium;
     Ticket.status := open;
     Ticket.assignee := None |}.

Definition note : body :=
  {[ "ticket_id" := JString "ignored";
     "author" := JString "kim";
     "body" := JString "Still jammed" ]}.

Definition note_comment : Comment.model :=
  {| Comment.ticket_id := "ignored"; Comment.author := "kim";
     Comment.body := "Still jammed" |}.

(** The store after one ticket was created at clock reading 5. *)
Definition stored_printer : dict :=
  <["_id" := VObjectId 0]>
    (<["updated_at" := VDatetime 5]>
      (<["created_at" := VDatetime 5]> (Ticket.model_dump printer_ticket))).

Definition one_ticket : Database :=
  {| collections := {[ "ticket" := [stored_printer] ]}; next_id := 1 |}.

(** A stand-in for a validator that normalises, as the email-validator
    package does: the local part is kept and the domain is put in lower
    case. *)
Definition lower (c : ascii) : ascii :=
  let n := N_of_ascii c in
  if (65 <=? n) && (n <=? 90) then ascii_of_N (n + 32) else c.

Fixpoint lower_domain (in_domain : bool) (s : string) : string :=
  match s with
  | "" => ""
  | String c s' =>
      String (if in_domain then lower c else c)
        (lower_domain (in_domain || Ascii.eqb c "@") s')
  end.

Definition EmailStr_normalising (s : string) : option string :=
  if has_at s then Some (lower_domain false s) else None.

(** The creation body with the domain of the address in upper case. *)
Definition printer_upper_case : body :=
  <["requester_email" := JString "kim@EXAMPLE.ORG"]> printer.

(** A store with one ticket and two comments on it, the later one inserted
    first. *)
Definition late_note : dict :=
  stored_comment "000000000000000000000000" note_comment 9 1.
Definition early_note : dict :=
  stored_comment "000000000000000000000000" note_comment 7 2.

Definition two_notes : Database :=
  {| collections :=
       {[ "ticket" := [stored_printer]; "comment" := [late_note; early_note] ]};
     next_id := 3 |}.

(** [s * n]: the string [s] repeated [n] times. *)
Fixpoint copies (n : nat) (s : string) : string :=
  match n with
  | O => ""
  | S n' => s +:+ copies n' s
  end.

Definition serve := serve EmailStr isoformat.
Definition serve_all := serve_all EmailStr isoformat.
End Sample.

(** * Properties *)

(** ** Lookups by [_id] *)

Lemma matches_singleton (k : string) (v : value) (d : dict) :
  matches {[ k := v ]} d = true ↔ d !! k = Some v.
Proof.
  unfold matches. rewrite bool_decide_eq_true.
  apply map_singleton_subseteq_l.
Qed.

Lemma matches_singleton_false (k : string) (v : value) (d : dict) :
  matches {[ k := v ]} d = false ↔ d !! k ≠ Some v.
Proof.
  rewrite <- matches_singleton. destruct (matches _ d); split; congruence.
Qed.

Lemma find_one_absent (k : string) (v : value) (coll : list dict) :
  (∀ d, d ∈ coll → d !! k ≠ Some v) → find_one {[ k := v ]} coll = None.
Proof.
  unfold find_one, find. induction coll as [|d coll IH]; intros Hno; [done|].
  simpl. assert (matches {[ k := v ]} d = false) as ->.
  { apply matches_singleton_false, Hno. left. }
  apply IH. intros d' Hd'. apply Hno. by right.
Qed.

Lemma find_one_present (k : string) (v : value) (coll : list dict) (t : dict) :
  t ∈ coll → t !! k = Some v → is_Some (find_one {[ k := v ]} coll).
Proof.
  intros Ht Hk. unfold find_one, find.
  induction coll as [|d coll IH]; [by apply elem_of_nil in Ht|].
  simpl. destruct (matches _ d) eqn:Hm; [by eexists|].
  apply IH. apply elem_of_cons in Ht as [->|]; [|done].
  apply matches_singleton in Hk. congruence.
Qed.

Lemma find_one_not_falsy (k : string) (v : value) (coll : list dict) (t : dict) :
  find_one {[ k := v ]} coll = Some t → falsy (Some t) = false.
Proof.
  unfold find_one, find. intros Hhead.
  assert (t ∈ List.filter (matches {[ k := v ]}) coll) as Hin.
  { destruct (List.filter _ coll); simplify_eq/=. left. }
  apply list_elem_of_In, List.filter_In in Hin as [_ Hm].
  apply matches_singleton in Hm. simpl. apply bool_decide_eq_false.
  intros ->. by rewrite lookup_empty in Hm.
Qed.

Lemma find_one_ticket_at (coll : list dict) (o : N) (t : dict) :
  ticket_at coll o t → find_one {[ "_id" := VObjectId o ]} coll = Some t.
Proof.
  intros (before & after & -> & Ht & Hbefore).
  unfold find_one, find. induction Hbefore as [|d before Hd _ IH]; simpl.
  - by apply matches_singleton in Ht as ->.
  - by apply matches_singleton_false in Hd as ->.
Qed.

Lemma find_one_Some_ticket_at (coll : list dict) (o : N) (t : dict) :
  find_one {[ "_id" := VObjectId o ]} coll = Some t → ticket_at coll o t.
Proof.
  unfold find_one, find. induction coll as [|d coll IH]; [done|]. simpl.
  destruct (matches _ d) eqn:Hm.
  - intros [= ->]. exists [], coll. split_and!; [done| |constructor].
    by apply matches_singleton.
  - intros (before & after & -> & Ht & Hb)%IH.
    exists (d :: before), after. split_and!; [done|done|].
    constructor; [|done]. by apply matches_singleton_false.
Qed.

Lemma ticket_at_not_falsy (coll : list dict) (o : N) (t : dict) :
  ticket_at coll o t → falsy (Some t) = false.
Proof.
  intros (_ & _ & _ & Ht & _). simpl. apply bool_decide_eq_false.
  intros ->. by rewrite lookup_empty in Ht.
Qed.

Lemma find_one_and_update_ticket_at (to_set : dict) (before after : list dict)
    (o : N) (t : dict) :
  t !! "_id" = Some (VObjectId o) →
  Forall (λ d, d !! "_id" ≠ Some (VObjectId o)) before →
  find_one_and_update {[ "_id" := VObjectId o ]} to_set (before ++ t :: after)
  = (Some (set_fields to_set t), (before ++ set_fields to_set t :: after)%list).
Proof.
  intros Ht Hbefore. induction Hbefore as [|d before Hd _ IH]; simpl.
  - by apply matches_singleton in Ht as ->.
  - apply matches_singleton_false in Hd as ->. by rewrite IH.
Qed.

Lemma find_one_and_update_absent (flt to_set : dict) (coll : list dict) :
  find_one flt coll = None → find_one_and_update flt to_set coll = (None, coll).
Proof.
  unfold find_one, find. induction coll as [|d coll IH]; [done|]. simpl.
  destruct (matches flt d); [done|]. intros H. by rewrite IH.
Qed.

(** ** The partial model and its dump *)

Lemma dump_field_nonempty {T} (str : T → string) (key : string) (f : field T)
    (d : dict) :
  dump_field str key f d = ∅ → f = Unset ∧ d = ∅.
Proof.
  destruct f as [|o]; simpl; [done|].
  intros H. by apply insert_non_empty in H.
Qed.

Lemma model_dump_exclude_unset_empty (u : TicketUpdate.model) :
  TicketUpdate.model_dump_exclude_unset u = ∅ ↔
  u = {| TicketUpdate.title := Unset; TicketUpdate.description := Unset;
         TicketUpdate.requester_email := Unset; TicketUpdate.category := Unset;
         TicketUpdate.priority := Unset; TicketUpdate.status := Unset;
         TicketUpdate.assignee := Unset |}.
Proof.
  split; [|by intros ->].
  destruct u as [t d e c p s a]. unfold TicketUpdate.model_dump_exclude_unset.
  simpl.
  intros [-> [-> [-> [-> [-> [-> [-> _]%dump_field_nonempty
    ]%dump_field_nonempty]%dump_field_nonempty]%dump_field_nonempty
    ]%dump_field_nonempty]%dump_field_nonempty]%dump_field_nonempty.
  done.
Qed.

Lemma update_ticket_nothing_set (isoformat : ascii → Z → string)
    (ticket_id : string) (updates : TicketUpdate.model) (now : Z) (st : Store) :
  TicketUpdate.model_dump_exclude_unset updates = ∅ →
  update_ticket isoformat ticket_id updates now st
  = (Return {[ "id" := VStr ticket_id; "updated" := VBool false ]}, st).
Proof.
  intros Hempty. unfold update_ticket, except_HTTPException_reraise.
  by rewrite Hempty.
Qed.

(** ** C1: identifiers that do not parse *)

(** C1, amended: when the [ticket_id] of the path does not parse as an
    ObjectId, [GET /api/tickets/{id}] and [POST /api/tickets/{id}/comments]
    answer with the server error 500, and so does [PATCH /api/tickets/{id}]
    whenever the body sets at least one field; the store is left as it
    was.  A PATCH that sets no field answers 200 with
    [{id, updated: false}] also for such an id. *)
Theorem malformed_id_is_server_error (isoformat : ascii → Z → string)
    (ticket_id : string) (st : Store) :
  ObjectId ticket_id = None →
  (status_code (fst (get_ticket isoformat ticket_id st)) = 500%nat
   ∧ snd (get_ticket isoformat ticket_id st) = st)
  ∧ (∀ payload now,
       status_code (fst (add_comment ticket_id payload now st)) = 500%nat
       ∧ snd (add_comment ticket_id payload now st) = st)
  ∧ (∀ updates now,
       TicketUpdate.model_dump_exclude_unset updates ≠ ∅ →
       status_code (fst (update_ticket isoformat ticket_id updates now st)) = 500%nat
       ∧ snd (update_ticket isoformat ticket_id updates now st) = st)
  ∧ (∀ updates now,
       TicketUpdate.model_dump_exclude_unset updates = ∅ →
       update_ticket isoformat ticket_id updates now st
       = (Return {[ "id" := VStr ticket_id; "updated" := VBool false ]}, st)).
Proof.
  intros Hid. split_and!.
  - unfold get_ticket, except_HTTPException_reraise, bind, db_collection,
      ObjectId_or_raise. rewrite Hid. by destruct st.
  - unfold get_ticket, except_HTTPException_reraise, bind, db_collection,
      ObjectId_or_raise. rewrite Hid. by destruct st.
  - intros payload now.
    unfold add_comment, except_HTTPException_reraise, bind, db_collection,
      ObjectId_or_raise. rewrite Hid. by destruct st.
  - intros updates now Hset.
    unfold update_ticket, except_HTTPException_reraise.
    rewrite bool_decide_eq_false_2 by done.
    unfold bind, db_collection, ObjectId_or_raise. rewrite Hid. by destruct st.
  - intros updates now Hempty. by apply update_ticket_nothing_set.
Qed.

(** ** ObjectIds and their hexadecimal form *)

Lemma hex_value_digit (n : N) : n < 16 → hex_value (hex_digit n) = Some n.
Proof.
  intros Hn.
  assert (n ∈ [0; 1; 2; 3; 4; 5; 6; 7; 8; 9; 10; 11; 12; 13; 14; 15]) as Hcases.
  { rewrite !elem_of_cons. lia. }
  rewrite !elem_of_cons in Hcases.
  repeat (destruct Hcases as [->|Hcases]; [reflexivity|]).
  by apply elem_of_nil in Hcases.
Qed.

Lemma hex_digit_not_space (n : N) : n < 16 → is_space (hex_digit n) = false.
Proof.
  intros Hn.
  assert (n ∈ [0; 1; 2; 3; 4; 5; 6; 7; 8; 9; 10; 11; 12; 13; 14; 15]) as Hcases.
  { rewrite !elem_of_cons. lia. }
  rewrite !elem_of_cons in Hcases.
  repeat (destruct Hcases as [->|Hcases]; [reflexivity|]).
  by apply elem_of_nil in Hcases.
Qed.

Lemma hex_digit_not_continuation (n : N) : is_continuation (hex_digit n) = false.
Proof.
  destruct n as [|p]; [reflexivity|].
  do 5 (try (destruct p as [p|p|]; try reflexivity)).
Qed.

Lemma append_cons (c : ascii) (s1 s2 : string) :
  String c s1 +:+ s2 = String c (s1 +:+ s2).
Proof. reflexivity. Qed.

Lemma append_nil_l (s : string) : "" +:+ s = s.
Proof. reflexivity. Qed.

Lemma append_nil_r (s : string) : s +:+ "" = s.
Proof. induction s as [|c s IH]; [done|]. rewrite append_cons. by f_equal. Qed.

Lemma append_assoc (s1 s2 s3 : string) : (s1 +:+ s2) +:+ s3 = s1 +:+ (s2 +:+ s3).
Proof.
  induction s1 as [|c s1 IH]; [done|]. rewrite !append_cons. by f_equal.
Qed.

(** Reading back the digits of [hexlify]: [k] bytes are added. *)
Lemma fromhex_hexlify (k : nat) (o : N) (rest : string) (n : nat) (acc : N) :
  fromhex (hexlify (2 * k) o +:+ rest) n acc
  = fromhex rest (n + k) (acc * 256 ^ N.of_nat k + o mod 256 ^ N.of_nat k).
Proof.
  revert o rest. induction k as [|k IH]; intros o rest.
  - cbn [Nat.mul hexlify]. rewrite append_nil_l. change (N.of_nat 0) with 0.
    rewrite N.pow_0_r, N.mod_1_r, Nat.add_0_r. f_equal. lia.
  - replace (2 * S k)%nat with (S (S (2 * k))) by lia. cbn [hexlify].
    rewrite !append_assoc, !append_cons, !append_nil_l, IH. cbn [fromhex].
    rewrite hex_digit_not_space by (apply N.mod_upper_bound; lia).
    rewrite !hex_value_digit by (apply N.mod_upper_bound; lia).
    f_equal; [lia|].
    rewrite Nat2N.inj_succ, N.pow_succ_r'.
    rewrite (N.Div0.mod_mul_r o 256 (256 ^ N.of_nat k)).
    assert (o mod 256 = o mod 16 + 16 * ((o / 16) mod 16)) as ->
      by apply (N.Div0.mod_mul_r o 16 16).
    rewrite N.Div0.div_div. change (16 * 16) with 256. lia.
Qed.

Lemma len_append (s1 s2 : string) : len (s1 +:+ s2) = (len s1 + len s2)%nat.
Proof.
  induction s1 as [|c s1 IH]; [done|]. rewrite append_cons. cbn [len].
  rewrite IH. lia.
Qed.

Lemma len_le_length (s : string) : (len s ≤ String.length s)%nat.
Proof. induction s as [|c s IH]; simpl; [done|]. destruct (is_continuation c); lia. Qed.

Lemma len_hexlify (k : nat) (o : N) : len (hexlify k o) = k.
Proof.
  revert o. induction k as [|k IH]; intros o; [done|].
  cbn [hexlify]. rewrite len_append, IH. cbn [len].
  rewrite hex_digit_not_continuation. simpl. lia.
Qed.

Lemma ObjectId_str_oid (o : N) :
  o < 2 ^ 96 → ObjectId (str_oid o) = Some (VObjectId o).
Proof.
  intros Ho. unfold ObjectId, str_oid. rewrite len_hexlify, Nat.eqb_refl.
  pose proof (fromhex_hexlify 12 o "" 0 0) as Hread.
  rewrite append_nil_r in Hread. change (2 * 12)%nat with 24%nat in Hread.
  rewrite Hread. cbn [fromhex Nat.add Nat.eqb].
  replace (256 ^ N.of_nat 12) with (2 ^ 96) by (vm_compute; reflexivity).
  by rewrite N.mod_small by done.
Qed.

(** ** Collections of the store *)

Lemma collection_insert_eq (cs : gmap string (list dict)) (name : string)
    (coll : list dict) (n : N) :
  collection {| collections := <[name := coll]> cs; next_id := n |} name = coll.
Proof. unfold collection. simpl. by rewrite lookup_insert_eq. Qed.

Lemma collection_insert_ne (cs : gmap string (list dict)) (name other : string)
    (coll : list dict) (n m : N) :
  name ≠ other →
  collection {| collections := <[name := coll]> cs; next_id := n |} other
  = collection {| collections := cs; next_id := m |} other.
Proof. intros Hne. unfold collection. simpl. by rewrite lookup_insert_ne. Qed.

Lemma well_formed_has_id (d : Database) (name : string) :
  well_formed d → Forall has_id (collection d name).
Proof.
  intros Hwf. apply Forall_forall. intros doc Hdoc.
  destruct (Hwf name doc Hdoc) as (o & Ho & _). by exists (VObjectId o).
Qed.

(** ** Conversion of documents for the response *)

Section Conversion.
Variable isoformat : ascii → Z → string.

Lemma convert_has_id (d : dict) :
  has_id d → convert isoformat d = Return (as_json isoformat d).
Proof.
  intros [v Hv]. unfold convert, pop, as_json. by rewrite Hv.
Qed.

Lemma for_each_convert (l : list dict) :
  Forall has_id l →
  for_each (convert isoformat) l = Return (as_json isoformat <$> l).
Proof.
  induction 1 as [|d l Hd _ IH]; [done|].
  simpl. by rewrite convert_has_id, IH.
Qed.

Lemma isoformat_field_lookup_ne (key k : string) (d : dict) :
  key ≠ k → isoformat_field isoformat key d !! k = d !! k.
Proof.
  intros Hne. unfold isoformat_field.
  destruct (d !! key) as [[]|]; try done. by rewrite lookup_insert_ne.
Qed.

(** Fields other than the identifier and the timestamps are returned as
    stored. *)
Lemma as_json_lookup (d : dict) (k : string) :
  k ≠ "_id" → k ≠ "id" → k ≠ "created_at" → k ≠ "updated_at" →
  as_json isoformat d !! k = d !! k.
Proof.
  intros H1 H2 H3 H4. unfold as_json.
  rewrite !isoformat_field_lookup_ne by done.
  rewrite lookup_insert_ne by done. by rewrite lookup_delete_ne.
Qed.
End Conversion.

(** ** C2: creating a ticket and fetching it *)

Lemma Priority_of_str (s : string) (p : Priority) :
  Priority_of s = Some p → Priority_str p = s.
Proof.
  unfold Priority_of.
  destruct (String.eqb_spec s "low") as [->|_]; [by intros [= <-]|].
  destruct (String.eqb_spec s "medium") as [->|_]; [by intros [= <-]|].
  destruct (String.eqb_spec s "high") as [->|_]; [by intros [= <-]|].
  destruct (String.eqb_spec s "urgent") as [->|_]; [by intros [= <-]|].
  done.
Qed.

Lemma Status_of_str (s : string) (x : Status) :
  Status_of s = Some x → Status_str x = s.
Proof.
  unfold Status_of.
  destruct (String.eqb_spec s "open") as [->|_]; [by intros [= <-]|].
  destruct (String.eqb_spec s "in_progress") as [->|_]; [by intros [= <-]|].
  destruct (String.eqb_spec s "resolved") as [->|_]; [by intros [= <-]|].
  destruct (String.eqb_spec s "closed") as [->|_]; [by intros [= <-]|].
  done.
Qed.

Lemma constrained_str_eq (lo : nat) (hi : option nat) (s r : string) :
  constrained_str lo hi s = Some r → r = s.
Proof. unfold constrained_str. by destruct (_ && _); intros [=]. Qed.

(** What a validated ticket holds, in terms of the body it was built from:
    string fields are taken as given, the email is the validated address,
    and omitted priority, status and assignee take their defaults. *)
Lemma Ticket_validate_fields (EmailStr : string → option string) (b : body)
    (p : Ticket.model) :
  Ticket.validate EmailStr b = Some p →
  b !! "title" = Some (JString (Ticket.title p))
  ∧ b !! "description" = Some (JString (Ticket.description p))
  ∧ (∃ s, b !! "requester_email" = Some (JString s)
          ∧ EmailStr s = Some (Ticket.requester_email p))
  ∧ b !! "category" = Some (JString (Ticket.category p))
  ∧ match b !! "priority" with
    | None => Ticket.priority p = medium
    | Some j => j = JString (Priority_str (Ticket.priority p))
    end
  ∧ match b !! "status" with
    | None => Ticket.status p = open
    | Some j => j = JString (Status_str (Ticket.status p))
    end
  ∧ match b !! "assignee" with
    | None | Some JNull => Ticket.assignee p = None
    | Some j => ∃ s, j = JString s ∧ Ticket.assignee p = Some s
    end.
Proof.
  unfold Ticket.validate, required, with_default, optional.
  destruct (b !! "title") as [[| | |t]|]; try done.
  destruct (b !! "description") as [[| | |ds]|];
    try (by destruct (constrained_str 3 _ _)).
  destruct (b !! "requester_email") as [[| | |e]|];
    try (by destruct (constrained_str 3 _ _), (constrained_str 5 _ _)).
  destruct (b !! "category") as [[| | |c]|];
    try (by destruct (constrained_str 3 _ _), (constrained_str 5 _ _), (EmailStr e)).
  destruct (constrained_str 3 _ t) as [t'|] eqn:Ht; [|done].
  destruct (constrained_str 5 _ ds) as [ds'|] eqn:Hds; [|done].
  destruct (EmailStr e) as [e'|] eqn:He; [|done].
  apply constrained_str_eq in Ht as ->. apply constrained_str_eq in Hds as ->.
  simpl.
  destruct (b !! "priority") as [[| | |pr]|]; try done;
    destruct (b !! "status") as [[| | |sx]|]; try done;
    try (by destruct (Priority_of pr));
    destruct (b !! "assignee") as [[| | |a]|]; simpl;
    try (by destruct (Priority_of pr));
    try (by destruct (Status_of sx));
    try (by destruct (Priority_of pr), (Status_of sx)).
  all: try (destruct (Priority_of pr) as [pr'|] eqn:Hpr; [|done];
            apply Priority_of_str in Hpr as <-).
  all: try (destruct (Status_of sx) as [sx'|] eqn:Hsx; [|done];
            apply Status_of_str in Hsx as <-).
  all: simpl; intros [= <-]; simpl; split_and!; eauto.
Qed.

Lemma has_id_find (flt : dict) (coll : list dict) :
  Forall has_id coll → Forall has_id (find flt coll).
Proof.
  unfold find. induction 1 as [|d coll Hd _ IH]; simpl; [done|].
  destruct (matches flt d); [by constructor|done].
Qed.

Lemma has_id_sort_ascending (field : string) (l : list dict) :
  Forall has_id l → Forall has_id (sort_ascending field l).
Proof.
  intros Hl. unfold sort_ascending. by rewrite merge_sort_Permutation.
Qed.

Lemma find_one_matches (k : string) (v : value) (coll : list dict) (t : dict) :
  find_one {[ k := v ]} coll = Some t → t ∈ coll ∧ t !! k = Some v.
Proof.
  unfold find_one, find. intros Hhead.
  assert (t ∈ List.filter (matches {[ k := v ]}) coll) as Hin.
  { destruct (List.filter _ coll); simplify_eq/=. left. }
  apply list_elem_of_In, List.filter_In in Hin as [Hin Hm].
  split; [by apply list_elem_of_In|by apply matches_singleton].
Qed.

(** The successful path of [get_ticket]: the first ticket whose [_id] is
    the parsed identifier, and the comments filed under the string of the
    path. *)
Lemma get_ticket_of_find_one (isoformat : ascii → Z → string) (ticket_id : string)
    (v : value) (d : Database) (t : dict) :
  ObjectId ticket_id = Some v →
  find_one {[ "_id" := v ]} (collection d "ticket") = Some t →
  Forall has_id (collection d "comment") →
  get_ticket isoformat ticket_id (Some d)
  = (Return (as_json isoformat t,
             as_json isoformat <$>
               sort_ascending "created_at"
                 (find {[ "ticket_id" := VStr ticket_id ]} (collection d "comment"))),
     Some d).
Proof.
  intros Hid Hfind Hcomments.
  unfold get_ticket, except_HTTPException_reraise, bind, db_collection,
    ObjectId_or_raise, lift, ret.
  rewrite Hid. cbn [ret].
  rewrite Hfind, (find_one_not_falsy _ _ _ _ Hfind).
  cbn [default from_option]. unfold id. rewrite convert_has_id.
  - rewrite for_each_convert; [done|].
    by apply has_id_sort_ascending, has_id_find.
  - apply find_one_matches in Hfind as [_ Hv]. by exists v.
Qed.

Lemma get_ticket_found (isoformat : ascii → Z → string) (ticket_id : string)
    (o : N) (d : Database) (t : dict) :
  ObjectId ticket_id = Some (VObjectId o) →
  ticket_at (collection d "ticket") o t →
  Forall has_id (collection d "comment") →
  get_ticket isoformat ticket_id (Some d)
  = (Return (as_json isoformat t,
             as_json isoformat <$>
               sort_ascending "created_at"
                 (find {[ "ticket_id" := VStr ticket_id ]} (collection d "comment"))),
     Some d).
Proof.
  intros Hid Ht Hcomments.
  by apply (get_ticket_of_find_one _ _ (VObjectId o)); [|apply find_one_ticket_at|].
Qed.

Lemma get_ticket_absent (isoformat : ascii → Z → string) (ticket_id : string)
    (v : value) (d : Database) :
  ObjectId ticket_id = Some v →
  (∀ t, t ∈ collection d "ticket" → t !! "_id" ≠ Some v) →
  get_ticket isoformat ticket_id (Some d)
  = (Raise (HTTPException 404 "Ticket not found"), Some d).
Proof.
  intros Hid Hno.
  unfold get_ticket, except_HTTPException_reraise, bind, db_collection,
    ObjectId_or_raise, ret.
  rewrite Hid, find_one_absent by done. done.
Qed.

(** C2, amended: a validated creation payload, created through
    [POST /api/tickets] and fetched through [GET /api/tickets/{id}] under
    the returned id, comes back with the title, description, category,
    priority, status and assignee of the body, with status [open] and
    priority [medium] when the body omits them, and with equal
    [created_at] and [updated_at]; its [requester_email] is the address as
    [EmailStr] returned it, which is the address of the body when the
    validator returns its input unchanged. *)
Theorem create_then_get (EmailStr : string → option string)
    (isoformat : ascii → Z → string) (b : body) (payload : Ticket.model)
    (now : Z) (d : Database) :
  Ticket.validate EmailStr b = Some payload →
  well_formed d →
  next_id d < 2 ^ 96 →
  ∃ id d' stored doc comments,
    create_ticket payload now (Some d) = (Return {[ "id" := VStr id ]}, Some d')
    ∧ collection d' "ticket" = (collection d "ticket" ++ [stored])%list
    ∧ get_ticket isoformat id (Some d') = (Return (doc, comments), Some d')
    ∧ doc !! "id" = Some (VStr id)
    ∧ doc !! "title" = Some (VStr (Ticket.title payload))
    ∧ doc !! "description" = Some (VStr (Ticket.description payload))
    ∧ doc !! "requester_email" = Some (VStr (Ticket.requester_email payload))
    ∧ doc !! "category" = Some (VStr (Ticket.category payload))
    ∧ doc !! "priority" = Some (VStr (Priority_str (Ticket.priority payload)))
    ∧ doc !! "status" = Some (VStr (Status_str (Ticket.status payload)))
    ∧ doc !! "assignee" = Some (dump_optional (Ticket.assignee payload))
    ∧ (∀ k s, k ∈ ["title"; "description"; "category"; "priority"; "status";
                    "assignee"] →
              b !! k = Some (JString s) → doc !! k = Some (VStr s))
    ∧ (∃ address, b !! "requester_email" = Some (JString address)
                  ∧ EmailStr address = Some (Ticket.requester_email payload)
                  ∧ (EmailStr address = Some address →
                     doc !! "requester_email" = Some (VStr address)))
    ∧ (b !! "status" = None → doc !! "status" = Some (VStr "open"))
    ∧ (b !! "priority" = None → doc !! "priority" = Some (VStr "medium"))
    ∧ (b !! "assignee" = None → doc !! "assignee" = Some VNone)
    ∧ stored !! "created_at" = Some (VDatetime now)
    ∧ stored !! "updated_at" = Some (VDatetime now)
    ∧ doc !! "created_at" = doc !! "updated_at".
Proof.
  intros Hvalid Hwf Hfresh.
  set (stored := <["_id" := VObjectId (next_id d)]>
                   (<["updated_at" := VDatetime now]>
                     (<["created_at" := VDatetime now]> (Ticket.model_dump payload)))).
  set (d' := {| collections :=
                  <["ticket" := (collection d "ticket" ++ [stored])%list]>
                    (collections d);
                next_id := N.succ (next_id d) |}).
  exists (str_oid (next_id d)), d', stored, (as_json isoformat stored).
  eexists.
  assert (collection d' "ticket" = (collection d "ticket" ++ [stored])%list) as Hcoll
    by apply collection_insert_eq.
  split; [done|]. split; [done|]. split.
  { apply (get_ticket_found _ _ (next_id d)).
    - by apply ObjectId_str_oid.
    - rewrite Hcoll. exists (collection d "ticket"), []. split_and!; [done|done|].
      apply Forall_forall. intros t Ht.
      destruct (Hwf "ticket" t Ht) as (o & -> & Ho). intros [= ->]. lia.
    - unfold d'. rewrite (collection_insert_ne _ _ _ _ _ (next_id d)) by done.
      replace {| collections := collections d; next_id := next_id d |} with d
        by by destruct d.
      by apply well_formed_has_id. }
  destruct (Ticket_validate_fields _ _ _ Hvalid)
    as (Ht & Hd & (address & Hmail & He) & Hc & Hp & Hs & Ha).
  split_and!; try reflexivity.
  - intros k s Hk Hb. rewrite !elem_of_cons in Hk.
    destruct Hk as [->|[->|[->|[->|[->|[->|Hk]]]]]]; [..|by apply elem_of_nil in Hk].
    + rewrite Ht in Hb. by injection Hb as <-.
    + rewrite Hd in Hb. by injection Hb as <-.
    + rewrite Hc in Hb. by injection Hb as <-.
    + rewrite Hb in Hp. by injection Hp as ->.
    + rewrite Hb in Hs. by injection Hs as ->.
    + rewrite Hb in Ha. destruct Ha as (s' & [= <-] & Ha).
      change (as_json isoformat stored !! "assignee")
        with (Some (dump_optional (Ticket.assignee payload))).
      by rewrite Ha.
  - exists address. split_and!; [done..|].
    intros Hkept. rewrite Hkept in He. by injection He as ->.
  - intros Hb. rewrite Hb in Hs.
    change (as_json isoformat stored !! "status")
      with (Some (VStr (Status_str (Ticket.status payload)))).
    by rewrite Hs.
  - intros Hb. rewrite Hb in Hp.
    change (as_json isoformat stored !! "priority")
      with (Some (VStr (Priority_str (Ticket.priority payload)))).
    by rewrite Hp.
  - intros Hb. rewrite Hb in Ha.
    change (as_json isoformat stored !! "assignee")
      with (Some (dump_optional (Ticket.assignee payload))).
    by rewrite Ha.
Qed.

(** ** C3 and C10: the empty update *)

(** C3: a PATCH whose body holds none of the fields of [TicketUpdate]
    returns [{id, updated: false}] and leaves the store, with every stored
    ticket and its [updated_at], exactly as it was. *)
Theorem empty_update_is_noop (EmailStr : string → option string)
    (isoformat : ascii → Z → string) (b : body) (updates : TicketUpdate.model)
    (ticket_id : string) (now : Z) (st : Store) :
  TicketUpdate.validate EmailStr b = Some updates →
  Forall (λ k, b !! k = None)
    ["title"; "description"; "requester_email"; "category"; "priority";
     "status"; "assignee"] →
  update_ticket isoformat ticket_id updates now st
  = (Return {[ "id" := VStr ticket_id; "updated" := VBool false ]}, st).
Proof.
  intros Hvalid Hnone. apply update_ticket_nothing_set.
  rewrite Forall_forall in Hnone.
  revert Hvalid. unfold TicketUpdate.validate.
  rewrite !Hnone by (rewrite !elem_of_cons; tauto).
  simpl. by intros [= <-].
Qed.

(** C10: when the update sets no field, [PATCH /api/tickets/{id}] returns
    [{id, updated: false}] with status 200 for every id string and every
    state of the store: also when the id does not parse, when no ticket
    has it, and when the store is not connected; no 404 is produced. *)
Theorem empty_update_any_id (isoformat : ascii → Z → string)
    (ticket_id : string) (updates : TicketUpdate.model) (now : Z) (st : Store) :
  TicketUpdate.model_dump_exclude_unset updates = ∅ →
  fst (update_ticket isoformat ticket_id updates now st)
  = Return {[ "id" := VStr ticket_id; "updated" := VBool false ]}
  ∧ status_code (fst (update_ticket isoformat ticket_id updates now st)) = 200%nat
  ∧ (ObjectId ticket_id = None →
     status_code (fst (update_ticket isoformat ticket_id updates now st)) ≠ 500%nat)
  ∧ (find_one {[ "_id" := default (VObjectId 0) (ObjectId ticket_id) ]}
       (from_option (λ d, collection d "ticket") [] st) = None →
     status_code (fst (update_ticket isoformat ticket_id updates now st)) ≠ 404%nat).
Proof.
  intros Hempty. rewrite update_ticket_nothing_set by done. simpl.
  split_and!; done.
Qed.

(** ** C4 and C9: comments *)

Lemma add_comment_found (ticket_id : string) (o : N) (payload : Comment.model)
    (now : Z) (d : Database) :
  ObjectId ticket_id = Some (VObjectId o) →
  (∃ t, t ∈ collection d "ticket" ∧ t !! "_id" = Some (VObjectId o)) →
  add_comment ticket_id payload now (Some d)
  = (Return {[ "id" := VStr (str_oid (next_id d)) ]},
     Some {| collections :=
               <["comment" :=
                   (collection d "comment"
                    ++ [stored_comment ticket_id payload now (next_id d)])%list]>
                 (collections d);
             next_id := N.succ (next_id d) |}).
Proof.
  intros Hid (t & Ht & Hto).
  destruct (find_one_present _ _ _ _ Ht Hto) as [t' Hfind].
  unfold add_comment, except_HTTPException_reraise, bind, db_collection,
    ObjectId_or_raise, ret.
  rewrite Hid. cbn [ret].
  rewrite Hfind, (find_one_not_falsy _ _ _ _ Hfind).
  reflexivity.
Qed.

(** C4: for a well-formed [ticket_id], [POST /api/tickets/{id}/comments]
    answers 404 "Ticket not found" and leaves the store as it was when no
    ticket has that id; when a ticket has it, exactly one document is
    appended to the comment collection, holding the path id as
    [ticket_id], the author and the body of the payload, both timestamps
    and a fresh [_id], whose string is returned as [{id}]; the ticket
    collection is unchanged. *)
Theorem add_comment_requires_ticket (ticket_id : string) (o : N)
    (payload : Comment.model) (now : Z) (d : Database) :
  ObjectId ticket_id = Some (VObjectId o) →
  ((∀ t, t ∈ collection d "ticket" → t !! "_id" ≠ Some (VObjectId o)) →
   add_comment ticket_id payload now (Some d)
   = (Raise (HTTPException 404 "Ticket not found"), Some d))
  ∧ ((∃ t, t ∈ collection d "ticket" ∧ t !! "_id" = Some (VObjectId o)) →
     ∃ d',
       add_comment ticket_id payload now (Some d)
       = (Return {[ "id" := VStr (str_oid (next_id d)) ]}, Some d')
       ∧ collection d' "comment"
         = (collection d "comment"
            ++ [ <["_id" := VObjectId (next_id d)]>
                   (<["updated_at" := VDatetime now]>
                     (<["created_at" := VDatetime now]>
                       {[ "ticket_id" := VStr ticket_id;
                          "author" := VStr (Comment.author payload);
                          "body" := VStr (Comment.body payload) ]})) ])%list
       ∧ collection d' "ticket" = collection d "ticket"
       ∧ next_id d' = N.succ (next_id d)).
Proof.
  intros Hid. split.
  - intros Hno.
    unfold add_comment, except_HTTPException_reraise, bind, db_collection,
      ObjectId_or_raise, ret.
    rewrite Hid, find_one_absent by done. done.
  - intros Hsome. eexists. split; [by eapply add_comment_found|].
    split_and!.
    + apply collection_insert_eq.
    + rewrite (collection_insert_ne _ _ _ _ _ (next_id d)) by done.
      by destruct d.
    + done.
Qed.

(** C9: the comment that [POST /api/tickets/{id}/comments] stores carries
    the id of the path as its [ticket_id]; the [ticket_id] of the body is
    overridden and takes no part in the outcome. *)
Theorem comment_ticket_id_is_path_id (ticket_id : string) (o : N)
    (payload : Comment.model) (now : Z) (d : Database) :
  ObjectId ticket_id = Some (VObjectId o) →
  (∃ t, t ∈ collection d "ticket" ∧ t !! "_id" = Some (VObjectId o)) →
  (∃ d', snd (add_comment ticket_id payload now (Some d)) = Some d'
         ∧ last (collection d' "comment")
           = Some (stored_comment ticket_id payload now (next_id d))
         ∧ stored_comment ticket_id payload now (next_id d) !! "ticket_id"
           = Some (VStr ticket_id))
  ∧ (∀ other st,
       add_comment ticket_id
         {| Comment.ticket_id := other; Comment.author := Comment.author payload;
            Comment.body := Comment.body payload |} now st
       = add_comment ticket_id payload now st).
Proof.
  intros Hid Hsome. split.
  - eexists. rewrite (add_comment_found _ _ _ _ _ Hid Hsome). simpl.
    split; [done|]. split; [|done].
    rewrite collection_insert_eq. apply last_snoc.
  - intros other st.
    unfold add_comment, except_HTTPException_reraise, bind, db_collection,
      ObjectId_or_raise, ret. rewrite Hid. cbn [ret].
    destruct st as [d0|]; [|done].
    destruct (falsy _); [done|].
    reflexivity.
Qed.

(** ** C6: resolving a ticket *)

Lemma update_ticket_found (isoformat : ascii → Z → string) (ticket_id : string)
    (o : N) (updates : TicketUpdate.model) (now : Z) (d : Database)
    (before after : list dict) (t : dict) :
  TicketUpdate.model_dump_exclude_unset updates ≠ ∅ →
  ObjectId ticket_id = Some (VObjectId o) →
  collection d "ticket" = (before ++ t :: after)%list →
  t !! "_id" = Some (VObjectId o) →
  Forall (λ x, x !! "_id" ≠ Some (VObjectId o)) before →
  let to_set := <["updated_at" := VDatetime now]>
                  (TicketUpdate.model_dump_exclude_unset updates) in
  update_ticket isoformat ticket_id updates now (Some d)
  = (Return (as_json isoformat (set_fields to_set t)),
     Some {| collections :=
               <["ticket" := (before ++ set_fields to_set t :: after)%list]>
                 (collections d);
             next_id := next_id d |}).
Proof.
  intros Hset Hid Hcoll Ht Hbefore to_set.
  unfold update_ticket, except_HTTPException_reraise.
  rewrite bool_decide_eq_false_2 by done.
  unfold bind, db_collection, ObjectId_or_raise, db_find_one_and_update.
  rewrite Hid. cbn [ret].
  rewrite Hcoll, find_one_and_update_ticket_at by done.
  fold to_set.
  assert (falsy (Some (set_fields to_set t)) = false) as ->.
  { simpl. apply bool_decide_eq_false. unfold set_fields, to_set.
    intros Hempty. apply (f_equal (λ m : dict, m !! "updated_at")) in Hempty.
    by rewrite lookup_union_l', lookup_insert_eq in Hempty
      by (rewrite lookup_insert_eq; eauto). }
  cbn [default from_option]. unfold lift, id. rewrite convert_has_id; [done|].
  unfold has_id, set_fields.
  rewrite lookup_union_r; [by eexists|].
  unfold to_set. rewrite lookup_insert_ne by done.
  destruct updates as [a1 a2 a3 a4 a5 a6 a7].
  unfold TicketUpdate.model_dump_exclude_unset, dump_field. simpl.
  by destruct a1, a2, a3, a4, a5, a6, a7.
Qed.

(** C6, amended: for an existing ticket, a PATCH with body
    [{"status": "resolved"}] rewrites that ticket in place: its [status]
    becomes [resolved], its [updated_at] becomes the clock reading of the
    request, every other field (with [created_at] and [_id]) keeps its
    value, and no other document changes.  The new [updated_at] exceeds the
    previous one exactly when the clock reading does. *)
Theorem resolve_touches_status_and_updated_at (EmailStr : string → option string)
    (isoformat : ascii → Z → string) (ticket_id : string) (o : N)
    (updates : TicketUpdate.model) (now : Z) (d : Database) (t : dict) :
  TicketUpdate.validate EmailStr {[ "status" := JString "resolved" ]} = Some updates →
  ObjectId ticket_id = Some (VObjectId o) →
  ticket_at (collection d "ticket") o t →
  ∃ t' d' before after,
    update_ticket isoformat ticket_id updates now (Some d)
    = (Return (as_json isoformat t'), Some d')
    ∧ collection d "ticket" = (before ++ t :: after)%list
    ∧ collection d' "ticket" = (before ++ t' :: after)%list
    ∧ (∀ name, name ≠ "ticket" → collection d' name = collection d name)
    ∧ t' !! "status" = Some (VStr "resolved")
    ∧ t' !! "updated_at" = Some (VDatetime now)
    ∧ (∀ k, k ≠ "status" → k ≠ "updated_at" → t' !! k = t !! k)
    ∧ (∀ u u', t !! "updated_at" = Some (VDatetime u) →
               t' !! "updated_at" = Some (VDatetime u') →
               (u < u')%Z ↔ (u < now)%Z).
Proof.
  intros Hvalid Hid (before & after & Hcoll & Ht & Hbefore).
  assert (updates = status_update resolved) as ->.
  { vm_compute in Hvalid. by injection Hvalid as <-. }
  set (to_set := <["updated_at" := VDatetime now]>
                   (TicketUpdate.model_dump_exclude_unset (status_update resolved))).
  exists (set_fields to_set t). eexists. exists before, after.
  split.
  { by apply (update_ticket_found _ _ o _ _ _ before after t). }
  assert (set_fields to_set t !! "updated_at" = Some (VDatetime now)) as Hnow.
  { unfold set_fields. by apply lookup_union_Some_l. }
  split_and!.
  - done.
  - apply collection_insert_eq.
  - intros name Hname.
    rewrite (collection_insert_ne _ _ _ _ _ (next_id d)) by done. by destruct d.
  - unfold set_fields. by apply lookup_union_Some_l.
  - done.
  - intros k Hk1 Hk2. unfold set_fields. apply lookup_union_r.
    unfold to_set, status_update, TicketUpdate.model_dump_exclude_unset. simpl.
    rewrite !lookup_insert_ne by done. done.
  - intros u u' _ Hu'. rewrite Hnow in Hu'. by injection Hu' as <-.
Qed.

(** ** C7: the comments of a ticket *)

#[local] Instance field_le_total (field : string) : Total (field_le field).
Proof.
  intros a b. unfold field_le.
  destruct (sort_key field a), (sort_key field b); simpl; try tauto. lia.
Qed.

#[local] Instance field_le_transitive (field : string) : Transitive (field_le field).
Proof.
  intros a b c. unfold field_le.
  destruct (sort_key field a), (sort_key field b), (sort_key field c);
    simpl; try tauto. lia.
Qed.

Lemma field_le_antisymmetric (field : string) (a b : dict) :
  field_le field a b → field_le field b a → sort_key field a = sort_key field b.
Proof.
  unfold field_le.
  destruct (sort_key field a), (sort_key field b); simpl; try tauto.
  intros. f_equal. lia.
Qed.

Lemma find_filter (flt : dict) (coll : list dict) :
  find flt coll = filter (λ d : dict, flt ⊆ d) coll.
Proof.
  unfold find. induction coll as [|d coll IH]; [done|].
  simpl. rewrite filter_cons, <- IH. unfold matches at 1.
  case_bool_decide; [by rewrite decide_True|by rewrite decide_False].
Qed.

Lemma find_singleton (k : string) (v : value) (coll : list dict) :
  find {[ k := v ]} coll = filter (λ d : dict, d !! k = Some v) coll.
Proof.
  rewrite find_filter. apply list_filter_iff.
  intros d. apply map_singleton_subseteq_l.
Qed.

(** C7: for an existing ticket, [GET /api/tickets/{id}] under the
    ticket's id returns the ticket, whose [id] is that id, with a
    [comments] array that holds exactly the comments whose [ticket_id]
    equals that id, in ascending order of [created_at]; this holds for
    every insertion order: with the same comments inserted in another
    order the array again holds the same comments in ascending order (and
    is the same array when their [created_at] are distinct). *)
Theorem get_ticket_embeds_sorted_comments (isoformat : ascii → Z → string)
    (o : N) (d : Database) (t : dict) :
  o < 2 ^ 96 →
  ticket_at (collection d "ticket") o t →
  Forall has_id (collection d "comment") →
  ∃ cs,
    get_ticket isoformat (str_oid o) (Some d)
    = (Return (as_json isoformat t, as_json isoformat <$> cs), Some d)
    ∧ as_json isoformat t !! "id" = Some (VStr (str_oid o))
    ∧ cs ≡ₚ filter (λ c : dict, c !! "ticket_id" = Some (VStr (str_oid o)))
              (collection d "comment")
    ∧ (∀ c, c ∈ cs ↔
            c ∈ collection d "comment" ∧ c !! "ticket_id" = Some (VStr (str_oid o)))
    ∧ Sorted (field_le "created_at") cs
    ∧ (∀ d2 : Database,
         ticket_at (collection d2 "ticket") o t →
         collection d2 "comment" ≡ₚ collection d "comment" →
         ∃ cs2,
           get_ticket isoformat (str_oid o) (Some d2)
           = (Return (as_json isoformat t, as_json isoformat <$> cs2), Some d2)
           ∧ cs2 ≡ₚ cs
           ∧ Sorted (field_le "created_at") cs2
           ∧ ((∀ c1 c2, c1 ∈ cs → c2 ∈ cs →
                 sort_key "created_at" c1 = sort_key "created_at" c2 → c1 = c2) →
              cs2 = cs)).
Proof.
  intros Ho Ht Hcomments.
  pose proof (ObjectId_str_oid o Ho) as Hid.
  exists (sort_ascending "created_at"
            (find {[ "ticket_id" := VStr (str_oid o) ]} (collection d "comment"))).
  split; [by apply get_ticket_found with o|].
  assert (∀ coll,
    sort_ascending "created_at" (find {[ "ticket_id" := VStr (str_oid o) ]} coll)
    ≡ₚ filter (λ c : dict, c !! "ticket_id" = Some (VStr (str_oid o))) coll) as Hperm.
  { intros coll. unfold sort_ascending.
    by rewrite merge_sort_Permutation, find_singleton. }
  split.
  { destruct Ht as (_ & _ & _ & Hto & _). unfold as_json. rewrite Hto.
    rewrite !isoformat_field_lookup_ne by done. apply lookup_insert_eq. }
  split; [apply Hperm|].
  split.
  { intros c. rewrite Hperm, list_elem_of_filter. tauto. }
  split; [apply Sorted_merge_sort, _|].
  intros d2 Ht2 Hsame.
  assert (Forall has_id (collection d2 "comment")) as Hcomments2.
  { eapply Permutation_Forall; [symmetry; exact Hsame|done]. }
  exists (sort_ascending "created_at"
            (find {[ "ticket_id" := VStr (str_oid o) ]} (collection d2 "comment"))).
  split; [by apply get_ticket_found with o|].
  split; [by rewrite !Hperm, Hsame|].
  split; [apply Sorted_merge_sort, _|].
  intros Hdistinct.
  apply (Sorted_unique_strong (field_le "created_at")).
  - intros c1 c2 Hc1 Hc2 H12 H21. apply Hdistinct.
    + revert Hc1. by rewrite !Hperm, Hsame.
    + done.
    + by apply field_le_antisymmetric.
  - apply Sorted_merge_sort, _.
  - apply Sorted_merge_sort, _.
  - by rewrite !Hperm, Hsame.
Qed.

(** ** C8: listing tickets *)

Lemma insert_subseteq_iff (k : string) (v : value) (m t : dict) :
  m !! k = None → <[k := v]> m ⊆ t ↔ t !! k = Some v ∧ m ⊆ t.
Proof.
  intros Hk. split.
  - intros Hsub. split.
    + eapply lookup_weaken; [apply lookup_insert_eq|done].
    + etrans; [by apply insert_subseteq|done].
  - intros [Ht Hm]. by apply insert_subseteq_l.
Qed.

Lemma find_selected (status priority : option string) (coll : list dict) :
  find
    (if truthy priority
     then <["priority" := VStr (default "" priority)]>
            (if truthy status
             then <["status" := VStr (default "" status)]> (∅ : dict) else ∅)
     else if truthy status
          then <["status" := VStr (default "" status)]> (∅ : dict) else ∅)
    coll
  = filter (selected status priority) coll.
Proof.
  rewrite find_filter. apply list_filter_iff. intros t. unfold selected, field_is.
  pose proof (map_empty_subseteq t) as Hempty.
  destruct status as [[|c s]|], priority as [[|c' s']|];
    cbn [truthy default from_option id];
    rewrite ?insert_subseteq_iff by (by simplify_map_eq);
    tauto.
Qed.

(** C8: [GET /api/tickets?status=..&priority=..] returns, in insertion
    order, exactly the tickets whose [status] and [priority] equal the
    query values that are given and not empty; an absent parameter
    constrains nothing. *)
Theorem list_tickets_filters (isoformat : ascii → Z → string)
    (status priority : option string) (d : Database) :
  Forall has_id (collection d "ticket") →
  list_tickets isoformat status priority (Some d)
  = (Return (as_json isoformat <$>
               filter (selected status priority) (collection d "ticket")),
     Some d)
  ∧ (∀ s p t, status = Some s → priority = Some p → s ≠ "" → p ≠ "" →
       selected status priority t ↔
       t !! "status" = Some (VStr s) ∧ t !! "priority" = Some (VStr p))
  ∧ (∀ s t, status = Some s → priority = None → s ≠ "" →
       selected status priority t ↔ t !! "status" = Some (VStr s))
  ∧ (∀ p t, status = None → priority = Some p → p ≠ "" →
       selected status priority t ↔ t !! "priority" = Some (VStr p))
  ∧ (status = None → priority = None →
     filter (selected status priority) (collection d "ticket")
     = collection d "ticket").
Proof.
  intros Hids. split_and!.
  - unfold list_tickets, except_Exception, bind, get_documents, lift.
    cbn zeta. rewrite find_selected.
    rewrite for_each_convert; [done|].
    rewrite <- find_selected. by apply has_id_find.
  - intros s p t -> -> Hs Hp. unfold selected, field_is.
    by destruct s, p.
  - intros s t -> -> Hs. unfold selected, field_is. destruct s; [done|tauto].
  - intros p t -> -> Hp. unfold selected, field_is. destruct p; [done|tauto].
  - intros -> ->. clear Hids.
    induction (collection d "ticket") as [|t l IH]; [done|].
    rewrite filter_cons_True by (by split). by rewrite IH.
Qed.

(** ** C5: the constraints of the data model *)

Lemma constrained_str_bounds (lo : nat) (hi : option nat) (s r : string) :
  constrained_str lo hi s = Some r →
  (lo ≤ len s)%nat
  ∧ ∀ h, hi = Some h → (len s ≤ h)%nat.
Proof.
  unfold constrained_str. destruct (_ && _) eqn:Hb; [|done]. intros _.
  apply andb_true_iff in Hb as [Hlo Hhi]. apply Nat.leb_le in Hlo.
  split; [done|]. intros h ->. by apply Nat.leb_le.
Qed.

(** Creation enforces the constraints: a body whose title or description
    has the wrong length does not validate, and a validated ticket meets
    them. *)
Lemma Ticket_validate_constraints (EmailStr : string → option string) (b : body)
    (p : Ticket.model) :
  Ticket.validate EmailStr b = Some p →
  (3 ≤ len (Ticket.title p) ≤ 200)%nat
  ∧ (5 ≤ len (Ticket.description p))%nat.
Proof.
  intros Hvalid.
  destruct (Ticket_validate_fields _ _ _ Hvalid) as (Ht & Hd & _).
  revert Hvalid. unfold Ticket.validate. rewrite Ht, Hd. cbn [required].
  destruct (constrained_str 3 _ _) as [t|] eqn:H1; [|done].
  destruct (constrained_str 5 _ _) as [ds|] eqn:H2; [|done]. intros _.
  apply constrained_str_bounds in H1 as [H1 H1'], H2 as [H2 _].
  specialize (H1' _ eq_refl). lia.
Qed.

(** C5 fails on the update path: after a valid creation, a PATCH with the
    one-letter title ["x"] is answered 200 and the stored ticket then has a
    title of length 1; [TicketUpdate] does not carry the length constraints
    that [Ticket] enforces. *)
Theorem short_title_is_stored :
  let patch := PATCH_ticket "000000000000000000000000" {[ "title" := JString "x" ]} in
  let st := Sample.serve_all [(POST_tickets Sample.printer, 5%Z)] empty_store in
  let st' := snd (Sample.serve patch 6%Z st) in
  (λ t, string_field t "title") <$> tickets_of st = [Some "Printer jam"]
  ∧ fst (Sample.serve patch 6%Z st) = 200%nat
  ∧ (λ t, string_field t "title") <$> tickets_of st' = [Some "x"]
  ∧ ¬ Forall title_ok (tickets_of st').
Proof.
  cbn zeta.
  assert ((λ t, string_field t "title") <$>
            tickets_of
              (snd (Sample.serve
                      (PATCH_ticket "000000000000000000000000"
                         {[ "title" := JString "x" ]}) 6%Z
                      (Sample.serve_all [(POST_tickets Sample.printer, 5%Z)]
                         empty_store)))
          = [Some "x"]) as Hstored by (vm_compute; reflexivity).
  split_and!; [vm_compute; reflexivity..|exact Hstored|].
  revert Hstored. generalize (tickets_of
              (snd (Sample.serve
                      (PATCH_ticket "000000000000000000000000"
                         {[ "title" := JString "x" ]}) 6%Z
                      (Sample.serve_all [(POST_tickets Sample.printer, 5%Z)]
                         empty_store)))).
  intros [|t l] Hstored Hok; [done|].
  injection Hstored as Ht _. apply Forall_cons_1 in Hok as [(s & Hs & Hlen) _].
  rewrite Ht in Hs. injection Hs as <-. simpl in Hlen. lia.
Qed.

(** ** The claims at concrete inputs *)

Lemma well_formed_empty : well_formed empty_database.
Proof.
  intros name doc Hdoc. unfold collection, empty_database in Hdoc.
  simpl in Hdoc. rewrite lookup_empty in Hdoc. by apply elem_of_nil in Hdoc.
Qed.

Lemma one_ticket_at :
  ticket_at (collection Sample.one_ticket "ticket") 0 Sample.stored_printer.
Proof.
  exists [], []. split_and!; [reflexivity|reflexivity|constructor].
Qed.

(** C1 as stated fails: the id ["not-an-id"] does not parse, and both
    [GET /api/tickets/not-an-id] and [POST /api/tickets/not-an-id/comments]
    answer 500, which is no client error. *)
Lemma malformed_id_not_client_error :
  ObjectId "not-an-id" = None
  ∧ status_code (fst (get_ticket Sample.isoformat "not-an-id" empty_store))
    = 500%nat
  ∧ status_code (fst (add_comment "not-an-id" Sample.note_comment 3 empty_store))
    = 500%nat
  ∧ server_error
      (status_code (fst (get_ticket Sample.isoformat "not-an-id" empty_store)))
  ∧ ¬ client_error
        (status_code (fst (get_ticket Sample.isoformat "not-an-id" empty_store))).
Proof.
  split_and!; [reflexivity..| |].
  - unfold server_error. vm_compute status_code. lia.
  - unfold client_error. vm_compute status_code. lia.
Qed.

Lemma malformed_id_is_server_error_witness :
  ObjectId "not-an-id" = None
  ∧ status_code (fst (get_ticket Sample.isoformat "not-an-id" empty_store))
    = 500%nat.
Proof.
  split; [reflexivity|].
  exact (proj1 (proj1 (malformed_id_is_server_error Sample.isoformat
                         "not-an-id" empty_store eq_refl))).
Defined.

Lemma create_then_get_witness :
  Ticket.validate Sample.EmailStr Sample.printer = Some Sample.printer_ticket
  ∧ next_id empty_database < 2 ^ 96
  ∧ ∃ id, fst (create_ticket Sample.printer_ticket 5 empty_store)
          = Return {[ "id" := VStr id ]}.
Proof.
  split; [reflexivity|]. split; [reflexivity|].
  destruct (create_then_get Sample.EmailStr Sample.isoformat
              Sample.printer Sample.printer_ticket 5 empty_database
              eq_refl well_formed_empty eq_refl)
    as (id & d' & stored & doc & comments & Hcreate & _).
  exists id. unfold empty_store. rewrite Hcreate. reflexivity.
Defined.

(** C2 as stated fails on the email address when the validator normalises
    it: the body carries [kim@EXAMPLE.ORG], the ticket is created, and the
    record fetched under the returned id carries [kim@example.org]. *)
Lemma create_then_get_normalised_email :
  let EmailStr := Sample.EmailStr_normalising in
  let st := serve_all EmailStr Sample.isoformat
              [(POST_tickets Sample.printer_upper_case, 5%Z)] empty_store in
  Sample.printer_upper_case !! "requester_email" = Some (JString "kim@EXAMPLE.ORG")
  ∧ fst (serve EmailStr Sample.isoformat (POST_tickets Sample.printer_upper_case)
           5%Z empty_store) = 200%nat
  ∧ (λ r : dict * list dict, fst r !! "requester_email") <$>
      returned (fst (get_ticket Sample.isoformat "000000000000000000000000" st))
    = Some (Some (VStr "kim@example.org"))
  ∧ VStr "kim@example.org" ≠ VStr "kim@EXAMPLE.ORG".
Proof.
  cbn zeta. split_and!; [vm_compute; reflexivity..|discriminate].
Qed.

Lemma empty_update_is_noop_witness :
  TicketUpdate.validate Sample.EmailStr {[ "colour" := JString "red" ]}
  = Some empty_update
  ∧ snd (update_ticket Sample.isoformat "000000000000000000000000"
           empty_update
           6 (Some Sample.one_ticket))
    = Some Sample.one_ticket.
Proof.
  split; [reflexivity|].
  refine (f_equal snd
            (empty_update_is_noop Sample.EmailStr Sample.isoformat
               {[ "colour" := JString "red" ]} empty_update
               "000000000000000000000000" 6 (Some Sample.one_ticket) _ _)).
  - reflexivity.
  - repeat constructor.
Defined.

Lemma empty_update_any_id_witness :
  TicketUpdate.model_dump_exclude_unset
    empty_update = ∅
  ∧ status_code
      (fst (update_ticket Sample.isoformat "not-an-id"
              empty_update
              6 None))
    = 200%nat.
Proof.
  split; [reflexivity|].
  exact (proj1 (proj2 (empty_update_any_id Sample.isoformat "not-an-id"
                         empty_update 6 None eq_refl))).
Defined.

Lemma add_comment_requires_ticket_witness :
  ObjectId "000000000000000000000000" = Some (VObjectId 0)
  ∧ add_comment "000000000000000000000000" Sample.note_comment 3 empty_store
    = (Raise (HTTPException 404 "Ticket not found"), empty_store)
  ∧ ∃ d',
      add_comment "000000000000000000000000" Sample.note_comment 7
        (Some Sample.one_ticket)
      = (Return {[ "id" := VStr "000000000000000000000001" ]}, Some d')
      ∧ collection d' "comment"
        = [ {[ "_id" := VObjectId 1;
               "updated_at" := VDatetime 7;
               "created_at" := VDatetime 7;
               "ticket_id" := VStr "000000000000000000000000";
               "author" := VStr "kim";
               "body" := VStr "Still jammed" ]} ]
      ∧ collection d' "ticket" = collection Sample.one_ticket "ticket".
Proof.
  split; [reflexivity|]. split.
  - apply (proj1 (add_comment_requires_ticket "000000000000000000000000" 0
                    Sample.note_comment 3 empty_database eq_refl)).
    intros t Ht. vm_compute in Ht. by apply elem_of_nil in Ht.
  - destruct (proj2 (add_comment_requires_ticket "000000000000000000000000" 0
                       Sample.note_comment 7 Sample.one_ticket eq_refl)
                (ex_intro _ Sample.stored_printer
                   (conj (list_elem_of_here _ _) eq_refl)))
      as (d' & Hrun & Hcomments & Htickets & _).
    exists d'. split; [exact Hrun|]. split; [exact Hcomments|exact Htickets].
Defined.

Lemma comment_ticket_id_is_path_id_witness :
  ObjectId "000000000000000000000000" = Some (VObjectId 0)
  ∧ add_comment "000000000000000000000000"
      {| Comment.ticket_id := "elsewhere"; Comment.author := "kim";
         Comment.body := "Still jammed" |} 7 (Some Sample.one_ticket)
    = add_comment "000000000000000000000000" Sample.note_comment 7
        (Some Sample.one_ticket).
Proof.
  split; [reflexivity|].
  apply (proj2 (comment_ticket_id_is_path_id "000000000000000000000000" 0
                  Sample.note_comment 7 Sample.one_ticket eq_refl
                  (ex_intro _ _ (conj (list_elem_of_here _ _) eq_refl)))).
Defined.

(** C6 as stated fails on [updated_at]: the ticket created at clock reading
    5 is resolved by a PATCH that reads the same clock value; the PATCH
    succeeds and sets the status, and [updated_at] is 5 before and after,
    so it did not strictly increase. *)
Lemma resolve_within_one_clock_reading :
  let patch := PATCH_ticket "000000000000000000000000"
                 {[ "status" := JString "resolved" ]} in
  let st := Sample.serve_all [(POST_tickets Sample.printer, 5%Z)] empty_store in
  let st' := snd (Sample.serve patch 5%Z st) in
  fst (Sample.serve patch 5%Z st) = 200%nat
  ∧ (λ t, string_field t "status") <$> tickets_of st' = [Some "resolved"]
  ∧ sort_key "updated_at" <$> tickets_of st = [Some 5%Z]
  ∧ sort_key "updated_at" <$> tickets_of st' = [Some 5%Z]
  ∧ ¬ (5 < 5)%Z.
Proof.
  cbn zeta. split_and!; [vm_compute; reflexivity..|lia].
Qed.

Lemma resolve_touches_status_and_updated_at_witness :
  TicketUpdate.validate Sample.EmailStr {[ "status" := JString "resolved" ]}
  = Some (status_update resolved)
  ∧ ObjectId "000000000000000000000000" = Some (VObjectId 0)
  ∧ ∃ t' d',
      update_ticket Sample.isoformat "000000000000000000000000"
        (status_update resolved) 9 (Some Sample.one_ticket)
      = (Return (as_json Sample.isoformat t'), Some d')
      ∧ t' !! "updated_at" = Some (VDatetime 9).
Proof.
  split; [reflexivity|]. split; [reflexivity|].
  destruct (resolve_touches_status_and_updated_at Sample.EmailStr
              Sample.isoformat "000000000000000000000000" 0
              (status_update resolved) 9 Sample.one_ticket
              Sample.stored_printer eq_refl eq_refl one_ticket_at)
    as (t' & d' & before & after & Hrun & _ & _ & _ & _ & Hnow & _).
  exists t', d'. split; [exact Hrun|exact Hnow].
Defined.

(** An id written in upper case is another name of the same ticket for the
    lookup, but not for the comments, which are filed under the string of
    the path: after eleven tickets the last one has id [...0a]; a comment
    added under [...0a] is not in the array that [GET] returns under
    [...0A]. *)
Lemma get_ticket_upper_case_id_misses_comments :
  let creations := (λ now, (POST_tickets Sample.printer, now)) <$> seqZ 1 11 in
  let st := Sample.serve_all
              (creations
               ++ [(POST_comments "00000000000000000000000a" Sample.note, 12%Z)])%list
              empty_store in
  (λ c : dict, c !! "ticket_id") <$> comments_of st
  = [Some (VStr "00000000000000000000000a")]
  ∧ (λ r : dict * list dict, (fst r !! "id", snd r)) <$>
      returned (fst (get_ticket Sample.isoformat "00000000000000000000000A" st))
    = Some (Some (VStr "00000000000000000000000a"), []).
Proof.
  cbn zeta. split; vm_compute; reflexivity.
Qed.

Lemma two_notes_at :
  ticket_at (collection Sample.two_notes "ticket") 0 Sample.stored_printer.
Proof.
  exists [], []. split_and!; [reflexivity|reflexivity|constructor].
Qed.

Lemma two_notes_have_id : Forall has_id (collection Sample.two_notes "comment").
Proof. repeat constructor; by eexists. Qed.

(** On the store with the later comment inserted first, the ticket comes
    back with the earlier comment first, while the comment listing keeps
    the insertion order. *)
Lemma two_notes_embedded_in_order :
  from_option
    (λ r : dict * list dict, (λ c : dict, c !! "created_at") <$> snd r) []
    (returned (fst (get_ticket Sample.isoformat "000000000000000000000000"
                      (Some Sample.two_notes))))
  = [Some (VStr (Sample.isoformat "T" 7)); Some (VStr (Sample.isoformat "T" 9))]
  ∧ from_option (λ l : list dict, (λ c : dict, c !! "created_at") <$> l) []
      (returned (fst (list_comments Sample.isoformat "000000000000000000000000"
                        (Some Sample.two_notes))))
    = [Some (VStr (Sample.isoformat "T" 9)); Some (VStr (Sample.isoformat "T" 7))].
Proof. split; vm_compute; reflexivity. Qed.

Lemma get_ticket_embeds_sorted_comments_witness :
  0 < 2 ^ 96
  ∧ collection Sample.two_notes "comment" = [Sample.late_note; Sample.early_note]
  ∧ ∃ cs,
      get_ticket Sample.isoformat (str_oid 0) (Some Sample.two_notes)
      = (Return (as_json Sample.isoformat Sample.stored_printer,
                 as_json Sample.isoformat <$> cs),
         Some Sample.two_notes)
      ∧ cs ≡ₚ [Sample.late_note; Sample.early_note]
      ∧ Sorted (field_le "created_at") cs.
Proof.
  split; [reflexivity|]. split; [reflexivity|].
  destruct (get_ticket_embeds_sorted_comments Sample.isoformat 0
              Sample.two_notes Sample.stored_printer eq_refl two_notes_at
              two_notes_have_id)
    as (cs & Hrun & _ & Hperm & _ & Hsorted & _).
  exists cs. split; [exact Hrun|]. split; [exact Hperm|exact Hsorted].
Defined.

Lemma one_ticket_has_id :
  Forall has_id (collection Sample.one_ticket "ticket").
Proof. repeat constructor. by eexists. Qed.

Lemma list_tickets_filters_witness :
  Forall has_id (collection Sample.one_ticket "ticket")
  ∧ list_tickets Sample.isoformat (Some "open") (Some "medium")
      (Some Sample.one_ticket)
    = (Return (as_json Sample.isoformat <$>
                 filter (selected (Some "open") (Some "medium"))
                   (collection Sample.one_ticket "ticket")),
       Some Sample.one_ticket).
Proof.
  split; [exact one_ticket_has_id|].
  exact (proj1 (list_tickets_filters Sample.isoformat (Some "open")
                  (Some "medium") Sample.one_ticket one_ticket_has_id)).
Defined.

(** ** The invariant of the store is kept by every endpoint *)

Lemma preserves_ret {A} (a : A) : preserves (ret a).
Proof. intros d Hd. by exists d. Qed.

Lemma preserves_raise {A} (e : exn) : preserves (raise (A := A) e).
Proof. intros d Hd. by exists d. Qed.

Lemma preserves_lift {A} (r : result A) : preserves (lift r).
Proof. intros d Hd. by exists d. Qed.

Lemma preserves_bind {A B} (m : M A) (f : A → M B) :
  preserves m → (∀ a, preserves (f a)) → preserves (bind m f).
Proof.
  intros Hm Hf d Hd. unfold bind.
  destruct (Hm d Hd) as (d1 & Hrun & Hd1).
  destruct (m (Some d)) as [[a|e] st]; simpl in Hrun; subst st.
  - by apply Hf.
  - by exists d1.
Qed.

Lemma preserves_except_Exception {A} (m : M A) :
  preserves m → preserves (except_Exception m).
Proof.
  intros Hm d Hd. unfold except_Exception.
  destruct (Hm d Hd) as (d1 & Hrun & Hd1).
  destruct (m (Some d)) as [[a|e] st]; simpl in Hrun; subst st; by exists d1.
Qed.

Lemma preserves_except_HTTPException_reraise {A} (m : M A) :
  preserves m → preserves (except_HTTPException_reraise m).
Proof.
  intros Hm d Hd. unfold except_HTTPException_reraise.
  destruct (Hm d Hd) as (d1 & Hrun & Hd1).
  destruct (m (Some d)) as [[a|[]] st]; simpl in Hrun; subst st; by exists d1.
Qed.

Lemma preserves_db_collection (name : string) : preserves (db_collection name).
Proof. intros d Hd. by exists d. Qed.

Lemma preserves_get_documents (name : string) (flt : dict) :
  preserves (get_documents name flt).
Proof. intros d Hd. by exists d. Qed.

Lemma preserves_ObjectId_or_raise (s : string) : preserves (ObjectId_or_raise s).
Proof. intros d Hd. exists d. unfold ObjectId_or_raise. by destruct (ObjectId s). Qed.

Lemma collection_insert (cs : gmap string (list dict)) (name other : string)
    (coll : list dict) (n : N) :
  collection {| collections := <[name := coll]> cs; next_id := n |} other
  = if decide (name = other) then coll
    else collection {| collections := cs; next_id := n |} other.
Proof.
  destruct (decide (name = other)) as [->|Hne].
  - apply collection_insert_eq.
  - by apply collection_insert_ne.
Qed.

Lemma preserves_create_document (name : string) (data : dict) (now : Z) :
  preserves (create_document name data now).
Proof.
  intros d Hd. eexists. split; [reflexivity|].
  intros other doc. rewrite collection_insert. simpl.
  destruct (decide (name = other)) as [->|Hne].
  - intros [Hdoc| ->%list_elem_of_singleton]%elem_of_app.
    + destruct (Hd _ _ Hdoc) as (o & Ho & Hlt). exists o. split; [done|lia].
    + exists (next_id d). split; [apply lookup_insert_eq|lia].
  - intros Hdoc.
    destruct (Hd other doc) as (o & Ho & Hlt); [by destruct d|].
    exists o. split; [done|lia].
Qed.

Lemma find_one_and_update_elem_of (flt to_set : dict) (coll coll' : list dict)
    (r t' : dict) :
  find_one_and_update flt to_set coll = (Some r, coll') →
  t' ∈ coll' → t' ∈ coll ∨ ∃ t, t ∈ coll ∧ t' = set_fields to_set t.
Proof.
  revert coll' r. induction coll as [|d coll IH]; intros coll' r; [done|]. simpl.
  destruct (matches flt d).
  - intros [= _ <-] [->|Hin]%elem_of_cons.
    + right. exists d. split; [left|done].
    + left. by right.
  - destruct (find_one_and_update flt to_set coll) as [[r'|] rest] eqn:Hrec;
      [|done].
    intros [= _ <-] [->|Hin]%elem_of_cons.
    + left. left.
    + destruct (IH rest r' eq_refl Hin) as [?|(t & ? & ?)].
      * left. by right.
      * right. exists t. split; [by right|done].
Qed.

Lemma preserves_db_find_one_and_update (name : string) (flt to_set : dict) :
  to_set !! "_id" = None → preserves (db_find_one_and_update name flt to_set).
Proof.
  intros Hid d Hd. unfold db_find_one_and_update.
  destruct (find_one_and_update flt to_set (collection d name))
    as [[r|] coll'] eqn:Hupd; [|by exists d].
  eexists. split; [reflexivity|].
  intros other doc. rewrite collection_insert. simpl.
  destruct (decide (name = other)) as [->|Hne].
  - intros Hdoc.
    destruct (find_one_and_update_elem_of _ _ _ _ _ _ Hupd Hdoc)
      as [Hin|(t & Hin & ->)].
    + by apply Hd in Hin.
    + destruct (Hd _ _ Hin) as (o & Ho & Hlt). exists o. split; [|done].
      unfold set_fields. by rewrite lookup_union_r.
  - intros Hdoc. apply (Hd other doc). by destruct d.
Qed.

Lemma model_dump_exclude_unset_no_id (u : TicketUpdate.model) :
  TicketUpdate.model_dump_exclude_unset u !! "_id" = None.
Proof.
  destruct u as [a1 a2 a3 a4 a5 a6 a7].
  unfold TicketUpdate.model_dump_exclude_unset, dump_field. simpl.
  by destruct a1, a2, a3, a4, a5, a6, a7.
Qed.

(** Every request leaves a connected, well-formed store connected and
    well-formed; so every store reached from the empty one is
    well-formed. *)
Lemma serve_well_formed (EmailStr : string → option string)
    (isoformat : ascii → Z → string) (r : request) (now : Z) (d : Database) :
  well_formed d →
  ∃ d', snd (serve EmailStr isoformat r now (Some d)) = Some d' ∧ well_formed d'.
Proof.
  intros Hd. destruct r as [b|s p|id|id b|id b|id]; simpl.
  - destruct (Ticket.validate EmailStr b) as [payload|]; [|by exists d].
    revert d Hd. apply preserves_except_Exception, preserves_bind.
    + apply preserves_create_document.
    + intros a. apply preserves_ret.
  - revert d Hd. apply preserves_except_Exception, preserves_bind.
    + apply preserves_get_documents.
    + intros a. apply preserves_lift.
  - revert d Hd. apply preserves_except_HTTPException_reraise, preserves_bind;
      [apply preserves_db_collection|intros tickets].
    apply preserves_bind; [apply preserves_ObjectId_or_raise|intros o].
    cbv zeta. destruct (falsy (find_one _ tickets)); [apply preserves_raise|].
    apply preserves_bind; [apply preserves_lift|intros doc].
    apply preserves_bind; [apply preserves_db_collection|intros comments].
    apply preserves_bind; [apply preserves_lift|intros cs]. apply preserves_ret.
  - destruct (TicketUpdate.validate EmailStr b) as [updates|]; [|by exists d].
    revert d Hd. apply preserves_except_HTTPException_reraise.
    cbv zeta.
    destruct (bool_decide (TicketUpdate.model_dump_exclude_unset updates = ∅));
      [apply preserves_ret|].
    apply preserves_bind; [apply preserves_db_collection|intros _].
    apply preserves_bind; [apply preserves_ObjectId_or_raise|intros o].
    apply preserves_bind.
    + apply preserves_db_find_one_and_update.
      rewrite lookup_insert_ne by done. apply model_dump_exclude_unset_no_id.
    + intros res. destruct (falsy res); [apply preserves_raise|apply preserves_lift].
  - destruct (Comment.validate b) as [payload|]; [|by exists d].
    revert d Hd. apply preserves_except_HTTPException_reraise, preserves_bind;
      [apply preserves_db_collection|intros tickets].
    apply preserves_bind; [apply preserves_ObjectId_or_raise|intros o].
    destruct (falsy (find_one _ tickets)); [apply preserves_raise|].
    apply preserves_bind; [apply preserves_create_document|intros cid].
    apply preserves_ret.
  - revert d Hd. apply preserves_except_Exception, preserves_bind.
    + apply preserves_get_documents.
    + intros a. apply preserves_lift.
Qed.

Lemma serve_all_well_formed (EmailStr : string → option string)
    (isoformat : ascii → Z → string) (trace : list (request * Z)) :
  ∃ d, serve_all EmailStr isoformat trace empty_store = Some d ∧ well_formed d.
Proof.
  unfold empty_store. generalize well_formed_empty. generalize empty_database.
  induction trace as [|[r now] trace IH]; intros d Hd; simpl.
  - by exists d.
  - destruct (serve_well_formed EmailStr isoformat r now d Hd) as (d' & -> & Hd').
    by apply IH.
Qed.

(** * Further properties of the handlers *)

(** ** Outcomes of [get_ticket] and [update_ticket] *)

Lemma find_one_None (k : string) (v : value) (coll : list dict) :
  find_one {[ k := v ]} coll = None → ∀ d, d ∈ coll → d !! k ≠ Some v.
Proof.
  intros Hnone d Hd Hk.
  destruct (find_one_present k v coll d Hd Hk) as [t Ht]. congruence.
Qed.

(** X1: on a connected store whose comments carry an [_id],
    [GET /api/tickets/{id}] answers 500 exactly when the id does not parse,
    404 exactly when it parses and no ticket has the parsed [_id], and 200
    otherwise; in every case the store is left as it was.  An id of 24
    characters with whitespace parses to fewer than 12 bytes, which no
    document of a well-formed store has, and so is answered 404. *)
Theorem get_ticket_outcomes (isoformat : ascii → Z → string) (ticket_id : string)
    (d : Database) :
  Forall has_id (collection d "comment") →
  let absent v := ∀ t, t ∈ collection d "ticket" → t !! "_id" ≠ Some v in
  let code := status_code (fst (get_ticket isoformat ticket_id (Some d))) in
  (code = 404%nat ↔ ∃ v, ObjectId ticket_id = Some v ∧ absent v)
  ∧ (code = 500%nat ↔ ObjectId ticket_id = None)
  ∧ (code = 200%nat ↔ ∃ v, ObjectId ticket_id = Some v ∧ ¬ absent v)
  ∧ (∀ n o, ObjectId ticket_id = Some (VObjectIdShort n o) → well_formed d →
            code = 404%nat)
  ∧ snd (get_ticket isoformat ticket_id (Some d)) = Some d.
Proof.
  intros Hcomments absent code. subst code.
  destruct (ObjectId ticket_id) as [v|] eqn:Hid.
  - destruct (find_one {[ "_id" := v ]} (collection d "ticket"))
      as [t|] eqn:Hfind.
    + rewrite (get_ticket_of_find_one _ _ _ _ _ Hid Hfind Hcomments). simpl.
      apply find_one_matches in Hfind as [Hin Hv].
      assert (¬ absent v) as Hpresent by (intros Habs; by apply (Habs t)).
      split_and!; [| |split; [eauto|done]| |done].
      * split; [done|]. by intros (v' & [= <-] & Habs).
      * split; done.
      * intros n o [= ->] Hwf. destruct (Hwf "ticket" t Hin) as (o' & Ho' & _).
        congruence.
    + pose proof (find_one_None _ _ _ Hfind) as Habs.
      rewrite (get_ticket_absent _ _ _ _ Hid Habs). simpl.
      split_and!; [split; [eauto|done]| |split| |done]; try done.
      by intros (v' & [= <-] & Hpresent).
  - assert (get_ticket isoformat ticket_id (Some d)
            = (Raise (HTTPException 500 (str_exn (InvalidId ticket_id))), Some d))
      as ->.
    { unfold get_ticket, except_HTTPException_reraise, bind, db_collection,
        ObjectId_or_raise. by rewrite Hid. }
    simpl. split_and!; [split| |split| |done]; try done.
    + by intros (v & [=] & _).
    + by intros (v & [=] & _).
Qed.

Lemma model_dump_exclude_unset_lookup_updated_at (u : TicketUpdate.model) :
  TicketUpdate.model_dump_exclude_unset u !! "updated_at" = None.
Proof.
  destruct u as [a1 a2 a3 a4 a5 a6 a7].
  unfold TicketUpdate.model_dump_exclude_unset, dump_field. simpl.
  by destruct a1, a2, a3, a4, a5, a6, a7.
Qed.

Lemma model_dump_exclude_unset_lookup_created_at (u : TicketUpdate.model) :
  TicketUpdate.model_dump_exclude_unset u !! "created_at" = None.
Proof.
  destruct u as [a1 a2 a3 a4 a5 a6 a7].
  unfold TicketUpdate.model_dump_exclude_unset, dump_field. simpl.
  by destruct a1, a2, a3, a4, a5, a6, a7.
Qed.

(** X2: a PATCH that sets at least one field, under a well-formed id that
    no ticket has, answers 404 "Ticket not found" and writes nothing. *)
Theorem update_ticket_unknown_id (isoformat : ascii → Z → string)
    (ticket_id : string) (o : N) (updates : TicketUpdate.model) (now : Z)
    (d : Database) :
  TicketUpdate.model_dump_exclude_unset updates ≠ ∅ →
  ObjectId ticket_id = Some (VObjectId o) →
  (∀ t, t ∈ collection d "ticket" → t !! "_id" ≠ Some (VObjectId o)) →
  update_ticket isoformat ticket_id updates now (Some d)
  = (Raise (HTTPException 404 "Ticket not found"), Some d).
Proof.
  intros Hset Hid Habs.
  unfold update_ticket, except_HTTPException_reraise.
  rewrite bool_decide_eq_false_2 by done.
  unfold bind, db_collection, ObjectId_or_raise, db_find_one_and_update.
  rewrite Hid. cbn [ret].
  by rewrite find_one_and_update_absent by by apply find_one_absent.
Qed.

(** X3: a PATCH on an existing ticket is a partial update: the ticket is
    rewritten in place, every field the body set takes the value of the
    body, [updated_at] takes the clock reading, every other field (with
    [_id] and [created_at]) keeps its value, and no other document or
    collection changes; the response is the ticket after the update. *)
Theorem update_ticket_partial_update (isoformat : ascii → Z → string)
    (ticket_id : string) (o : N) (updates : TicketUpdate.model) (now : Z)
    (d : Database) (t : dict) :
  TicketUpdate.model_dump_exclude_unset updates ≠ ∅ →
  ObjectId ticket_id = Some (VObjectId o) →
  ticket_at (collection d "ticket") o t →
  ∃ t' d' before after,
    update_ticket isoformat ticket_id updates now (Some d)
    = (Return (as_json isoformat t'), Some d')
    ∧ collection d "ticket" = (before ++ t :: after)%list
    ∧ collection d' "ticket" = (before ++ t' :: after)%list
    ∧ (∀ name, name ≠ "ticket" → collection d' name = collection d name)
    ∧ next_id d' = next_id d
    ∧ t' !! "updated_at" = Some (VDatetime now)
    ∧ (∀ k v, TicketUpdate.model_dump_exclude_unset updates !! k = Some v →
              t' !! k = Some v)
    ∧ (∀ k, k ≠ "updated_at" →
            TicketUpdate.model_dump_exclude_unset updates !! k = None →
            t' !! k = t !! k)
    ∧ t' !! "_id" = t !! "_id"
    ∧ t' !! "created_at" = t !! "created_at".
Proof.
  intros Hset Hid (before & after & Hcoll & Ht & Hbefore).
  set (to_set := <["updated_at" := VDatetime now]>
                   (TicketUpdate.model_dump_exclude_unset updates)).
  exists (set_fields to_set t). eexists. exists before, after.
  split; [by apply (update_ticket_found _ _ o _ _ _ before after t)|].
  assert (∀ k, k ≠ "updated_at" →
               TicketUpdate.model_dump_exclude_unset updates !! k = None →
               set_fields to_set t !! k = t !! k) as Hkeep.
  { intros k Hk Hnone. unfold set_fields. apply lookup_union_r.
    unfold to_set. by rewrite lookup_insert_ne. }
  split_and!.
  - done.
  - apply collection_insert_eq.
  - intros name Hname.
    rewrite (collection_insert_ne _ _ _ _ _ (next_id d)) by done. by destruct d.
  - done.
  - unfold set_fields. apply lookup_union_Some_l. apply lookup_insert_eq.
  - intros k v Hk. unfold set_fields. apply lookup_union_Some_l.
    unfold to_set. rewrite lookup_insert_ne; [done|].
    intros <-. by rewrite model_dump_exclude_unset_lookup_updated_at in Hk.
  - done.
  - apply Hkeep; [done|apply model_dump_exclude_unset_no_id].
  - apply Hkeep; [done|apply model_dump_exclude_unset_lookup_created_at].
Qed.

(** ** The store without a connection *)

(** X5: when the handle [db] is [None], [GET /api/tickets/{id}],
    [POST /api/tickets/{id}/comments] and every PATCH that sets a field
    answer 500 with the message of the failed subscript, whatever the id:
    [db["ticket"]] is evaluated before the id is parsed. *)
Theorem handlers_without_connection (isoformat : ascii → Z → string)
    (ticket_id : string) (payload : Comment.model)
    (updates : TicketUpdate.model) (now : Z) :
  let failed {A} : result A * Store :=
    (Raise (HTTPException 500 "'NoneType' object is not subscriptable"), None) in
  get_ticket isoformat ticket_id None = failed
  ∧ add_comment ticket_id payload now None = failed
  ∧ (TicketUpdate.model_dump_exclude_unset updates ≠ ∅ →
     update_ticket isoformat ticket_id updates now None = failed).
Proof.
  cbn zeta. split_and!; [done..|].
  intros Hset. unfold update_ticket, except_HTTPException_reraise.
  by rewrite bool_decide_eq_false_2 by done.
Qed.

(** ** What the handlers never write *)

Lemma find_one_and_update_Some (flt to_set : dict) (coll coll' : list dict)
    (r : dict) :
  find_one_and_update flt to_set coll = (Some r, coll') →
  ∃ t, t ∈ coll ∧ matches flt t = true ∧ r = set_fields to_set t.
Proof.
  revert coll' r. induction coll as [|d coll IH]; intros coll' r; [done|]. simpl.
  destruct (matches flt d) eqn:Hm.
  - intros [= <- _]. exists d. split_and!; [left|done..].
  - destruct (find_one_and_update flt to_set coll) as [[r'|] rest] eqn:Hrec;
      [|done].
    intros [= <- _]. destruct (IH rest r' eq_refl) as (t & Ht & Hmt & ->).
    exists t. split_and!; [by right|done..].
Qed.

Lemma find_one_and_update_fmap (flt to_set : dict) (coll : list dict) (k : string) :
  to_set !! k = None →
  (λ t : dict, t !! k) <$> (find_one_and_update flt to_set coll).2
  = (λ t : dict, t !! k) <$> coll.
Proof.
  intros Hk. induction coll as [|d coll IH]; [done|]. simpl.
  destruct (matches flt d); simpl.
  - f_equal. unfold set_fields. by apply lookup_union_r.
  - destruct (find_one_and_update flt to_set coll) as [r rest]. simpl in *.
    by f_equal.
Qed.

Lemma get_ticket_state (isoformat : ascii → Z → string) (ticket_id : string)
    (st : Store) :
  snd (get_ticket isoformat ticket_id st) = st.
Proof.
  unfold get_ticket, except_HTTPException_reraise, bind, db_collection,
    ObjectId_or_raise, lift, ret, raise.
  destruct st as [d|]; [|done].
  destruct (ObjectId ticket_id); [|done]. cbv zeta.
  destruct (falsy _); [done|].
  destruct (convert _ _) as [doc|e]; [|by destruct e].
  destruct (for_each _ _) as [cs|e]; [done|by destruct e].
Qed.

Lemma add_comment_of_find_one (ticket_id : string) (v : value)
    (payload : Comment.model) (now : Z) (d : Database) (t : dict) :
  ObjectId ticket_id = Some v →
  find_one {[ "_id" := v ]} (collection d "ticket") = Some t →
  add_comment ticket_id payload now (Some d)
  = (Return {[ "id" := VStr (str_oid (next_id d)) ]},
     Some {| collections :=
               <["comment" :=
                   (collection d "comment"
                    ++ [stored_comment ticket_id payload now (next_id d)])%list]>
                 (collections d);
             next_id := N.succ (next_id d) |}).
Proof.
  intros Hid Hfind.
  unfold add_comment, except_HTTPException_reraise, bind, db_collection,
    ObjectId_or_raise, ret.
  rewrite Hid. cbn [ret].
  rewrite Hfind, (find_one_not_falsy _ _ _ _ Hfind).
  reflexivity.
Qed.

Lemma add_comment_state (ticket_id : string) (payload : Comment.model) (now : Z)
    (d : Database) :
  snd (add_comment ticket_id payload now (Some d)) = Some d
  ∨ ∃ v t,
      ObjectId ticket_id = Some v
      ∧ t ∈ collection d "ticket"
      ∧ t !! "_id" = Some v
      ∧ snd (add_comment ticket_id payload now (Some d))
        = Some {| collections :=
                    <["comment" :=
                        (collection d "comment"
                         ++ [stored_comment ticket_id payload now (next_id d)])%list]>
                      (collections d);
                  next_id := N.succ (next_id d) |}.
Proof.
  destruct (ObjectId ticket_id) as [v|] eqn:Hid.
  - destruct (find_one {[ "_id" := v ]} (collection d "ticket"))
      as [t|] eqn:Hfind.
    + right. exists v, t.
      rewrite (add_comment_of_find_one _ _ _ _ _ _ Hid Hfind).
      apply find_one_matches in Hfind as [Hin Hv]. done.
    + left. pose proof (find_one_None _ _ _ Hfind) as Habs.
      unfold add_comment, except_HTTPException_reraise, bind, db_collection,
        ObjectId_or_raise, ret.
      rewrite Hid, find_one_absent by done. done.
  - left. unfold add_comment, except_HTTPException_reraise, bind, db_collection,
      ObjectId_or_raise. by rewrite Hid.
Qed.

(** X6: [GET /api/tickets/{id}] never changes the store, and the two
    writing handlers of a ticket write nothing when they fail: whenever
    [PATCH /api/tickets/{id}] or [POST /api/tickets/{id}/comments] raises,
    the store is as it was before the request. *)
Theorem failures_write_nothing (isoformat : ascii → Z → string)
    (ticket_id : string) (payload : Comment.model)
    (updates : TicketUpdate.model) (now : Z) (st : Store) :
  snd (get_ticket isoformat ticket_id st) = st
  ∧ (∀ e, fst (update_ticket isoformat ticket_id updates now st) = Raise e →
          snd (update_ticket isoformat ticket_id updates now st) = st)
  ∧ (∀ e, fst (add_comment ticket_id payload now st) = Raise e →
          snd (add_comment ticket_id payload now st) = st).
Proof.
  split_and!.
  - unfold get_ticket, except_HTTPException_reraise, bind, db_collection,
      ObjectId_or_raise, lift, ret, raise.
    destruct st as [d|]; [|done].
    destruct (ObjectId ticket_id); [|done]. cbv zeta.
    destruct (falsy _); [done|].
    destruct (convert _ _) as [doc|e]; [|by destruct e].
    destruct (for_each _ _) as [cs|e]; [done|by destruct e].
  - intros e. unfold update_ticket, except_HTTPException_reraise. cbv zeta.
    destruct (bool_decide _); [done|].
    unfold bind, db_collection, ObjectId_or_raise, db_find_one_and_update,
      lift, ret, raise.
    destruct st as [d|]; [|done].
    destruct (ObjectId ticket_id) as [o|]; [|done].
    destruct (find_one_and_update _ _ _) as [[r|] coll'] eqn:Hupd; [|done].
    destruct (find_one_and_update_Some _ _ _ _ _ Hupd) as (t & _ & Hm & ->).
    apply matches_singleton in Hm.
    assert (falsy (Some (set_fields
              (<["updated_at" := VDatetime now]>
                 (TicketUpdate.model_dump_exclude_unset updates)) t)) = false) as ->.
    { simpl. apply bool_decide_eq_false. intros Hempty.
      apply (f_equal (λ m : dict, m !! "updated_at")) in Hempty.
      unfold set_fields in Hempty.
      by rewrite lookup_union_l', lookup_insert_eq in Hempty
        by (rewrite lookup_insert_eq; eauto). }
    cbn [default from_option]. unfold id. rewrite convert_has_id; [done|].
    unfold has_id, set_fields. rewrite lookup_union_r; [by eexists|].
    rewrite lookup_insert_ne by done. apply model_dump_exclude_unset_no_id.
  - intros e. unfold add_comment, except_HTTPException_reraise, bind,
      db_collection, ObjectId_or_raise, create_document, ret, raise.
    destruct st as [d|]; [|done].
    destruct (ObjectId ticket_id) as [o|]; [|done].
    by destruct (falsy _).
Qed.

Lemma update_ticket_state (isoformat : ascii → Z → string)
    (ticket_id : string) (updates : TicketUpdate.model) (now : Z) (d : Database) :
  ∃ d',
    snd (update_ticket isoformat ticket_id updates now (Some d)) = Some d'
    ∧ (λ t : dict, t !! "_id") <$> collection d' "ticket"
      = (λ t : dict, t !! "_id") <$> collection d "ticket"
    ∧ (λ t : dict, t !! "created_at") <$> collection d' "ticket"
      = (λ t : dict, t !! "created_at") <$> collection d "ticket"
    ∧ (∀ name, name ≠ "ticket" → collection d' name = collection d name)
    ∧ next_id d' = next_id d.
Proof.
  unfold update_ticket, except_HTTPException_reraise. cbv zeta.
  destruct (bool_decide _); [by exists d|].
  unfold bind, db_collection, ObjectId_or_raise, db_find_one_and_update,
    lift, ret, raise. cbn [fst snd].
  destruct (ObjectId ticket_id) as [o|]; [|by exists d]. cbn [ret].
  pose proof (find_one_and_update_fmap {[ "_id" := o ]}
    (<["updated_at" := VDatetime now]>
       (TicketUpdate.model_dump_exclude_unset updates))
    (collection d "ticket")) as Hsame.
  destruct (find_one_and_update _ _ _) as [[r|] coll'] eqn:Hupd;
    [|by exists d].
  simpl in Hsame.
  eexists
    {| collections := <["ticket" := coll']> (collections d); next_id := next_id d |}.
  split.
  { destruct (falsy (Some r)); [done|]. simpl.
    by destruct (convert isoformat r) as [?|[]]. }
  rewrite collection_insert_eq.
  split_and!.
  - apply Hsame. rewrite lookup_insert_ne by done.
    apply model_dump_exclude_unset_no_id.
  - apply Hsame. rewrite lookup_insert_ne by done.
    apply model_dump_exclude_unset_lookup_created_at.
  - intros name Hname.
    rewrite (collection_insert_ne _ _ _ _ _ (next_id d)) by done. by destruct d.
  - done.
Qed.

(** X7: no PATCH changes which tickets exist or who they are: whatever the
    id and the body, the ticket collection afterwards has the same [_id]s
    and the same [created_at] values in the same order, every other
    collection is as before, and no fresh id is consumed. *)
Theorem update_ticket_keeps_identity (isoformat : ascii → Z → string)
    (ticket_id : string) (updates : TicketUpdate.model) (now : Z) (d : Database) :
  ∃ d',
    snd (update_ticket isoformat ticket_id updates now (Some d)) = Some d'
    ∧ (λ t : dict, t !! "_id") <$> collection d' "ticket"
      = (λ t : dict, t !! "_id") <$> collection d "ticket"
    ∧ (λ t : dict, t !! "created_at") <$> collection d' "ticket"
      = (λ t : dict, t !! "created_at") <$> collection d "ticket"
    ∧ (∀ name, name ≠ "ticket" → collection d' name = collection d name)
    ∧ next_id d' = next_id d.
Proof. apply update_ticket_state. Qed.

(** ** The exceptions that leave a handler *)

Lemma convert_Raise (isoformat : ascii → Z → string) (d : dict) (e : exn) :
  convert isoformat d = Raise e → e = KeyError "_id" ∧ d !! "_id" = None.
Proof.
  unfold convert, pop. destruct (d !! "_id"); [done|]. by intros [= <-].
Qed.

Lemma for_each_Raise {A B} (f : A → result B) (l : list A) (e : exn) :
  for_each f l = Raise e → ∃ a, a ∈ l ∧ f a = Raise e.
Proof.
  induction l as [|a l IH]; [done|]. simpl.
  destruct (f a) as [b|e'] eqn:Hfa.
  - destruct (for_each f l) as [bs|e'']; [done|].
    intros [= ->]. destruct IH as (a' & Ha' & Hfa'); [done|].
    exists a'. split; [by right|done].
  - intros [= ->]. exists a. split; [left|done].
Qed.

Lemma for_each_convert_Raise (isoformat : ascii → Z → string) (l : list dict)
    (e : exn) :
  for_each (convert isoformat) l = Raise e → e = KeyError "_id".
Proof.
  intros (d & _ & Hd)%for_each_Raise. by apply convert_Raise in Hd as [-> _].
Qed.

Lemma answers_except_Exception {A} (body : M A) (st : Store) :
  answers [500]%nat (fst (except_Exception body st)).
Proof.
  unfold except_Exception. destruct (body st) as [[a|e] st']; simpl; [done|].
  set_solver.
Qed.

(** X4: whatever the request and the state of the store, a handler either
    returns or raises an [HTTPException]; the creating and listing
    handlers raise none but 500, and the handlers of one ticket none but
    404 and 500. *)
Theorem handlers_raise_http_exceptions_only (isoformat : ascii → Z → string)
    (st : Store) :
  (∀ payload now, answers [500]%nat (fst (create_ticket payload now st)))
  ∧ (∀ status priority,
       answers [500]%nat (fst (list_tickets isoformat status priority st)))
  ∧ (∀ ticket_id, answers [500]%nat (fst (list_comments isoformat ticket_id st)))
  ∧ (∀ ticket_id,
       answers [404; 500]%nat (fst (get_ticket isoformat ticket_id st)))
  ∧ (∀ ticket_id updates now,
       answers [404; 500]%nat
         (fst (update_ticket isoformat ticket_id updates now st)))
  ∧ (∀ ticket_id payload now,
       answers [404; 500]%nat (fst (add_comment ticket_id payload now st))).
Proof.
  split_and!; intros; try apply answers_except_Exception.
  - unfold get_ticket, except_HTTPException_reraise, bind, db_collection,
      ObjectId_or_raise, lift, ret, raise.
    destruct st as [d|]; [|simpl; set_solver].
    destruct (ObjectId ticket_id); [|simpl; set_solver]. cbv zeta.
    destruct (falsy _); [simpl; set_solver|].
    destruct (convert _ _) as [doc|e] eqn:Hdoc;
      [|apply convert_Raise in Hdoc as [-> _]; simpl; set_solver].
    destruct (for_each _ _) as [cs|e] eqn:Hcs; [done|].
    apply for_each_convert_Raise in Hcs as ->. simpl. set_solver.
  - unfold update_ticket, except_HTTPException_reraise. cbv zeta.
    destruct (bool_decide _); [done|].
    unfold bind, db_collection, ObjectId_or_raise, db_find_one_and_update,
      lift, ret, raise.
    destruct st as [d|]; [|simpl; set_solver].
    destruct (ObjectId ticket_id) as [o|]; [|simpl; set_solver].
    destruct (find_one_and_update _ _ _) as [[r|] coll'];
      [|simpl; set_solver].
    destruct (falsy (Some r)); [simpl; set_solver|]. simpl.
    destruct (convert isoformat r) as [doc|e] eqn:Hdoc; [done|].
    apply convert_Raise in Hdoc as [-> _]. simpl. set_solver.
  - unfold add_comment, except_HTTPException_reraise, bind, db_collection,
      ObjectId_or_raise, create_document, ret, raise.
    destruct st as [d|]; [|simpl; set_solver].
    destruct (ObjectId ticket_id) as [o|]; [|simpl; set_solver].
    destruct (falsy _); simpl; [set_solver|done].
Qed.

(** ** Comments: listing, and listing after adding *)

Lemma list_comments_connected (isoformat : ascii → Z → string)
    (ticket_id : string) (d : Database) :
  Forall has_id (collection d "comment") →
  list_comments isoformat ticket_id (Some d)
  = (Return (as_json isoformat <$>
               filter (λ c : dict, c !! "ticket_id" = Some (VStr ticket_id))
                 (collection d "comment")),
     Some d).
Proof.
  intros Hids. unfold list_comments, except_Exception, bind, get_documents, lift.
  rewrite for_each_convert by by apply has_id_find.
  by rewrite find_singleton.
Qed.

(** X8: [GET /api/tickets/{id}/comments] returns, in insertion order, the
    comments whose stored [ticket_id] is the string of the path; it neither
    parses the id nor looks for the ticket, so an id that is malformed or
    unknown gives 200 with the (possibly empty) list, never 404. *)
Theorem list_comments_by_path_string (isoformat : ascii → Z → string)
    (ticket_id : string) (d : Database) :
  Forall has_id (collection d "comment") →
  list_comments isoformat ticket_id (Some d)
  = (Return (as_json isoformat <$>
               filter (λ c : dict, c !! "ticket_id" = Some (VStr ticket_id))
                 (collection d "comment")),
     Some d)
  ∧ (ObjectId ticket_id = None →
     status_code (fst (list_comments isoformat ticket_id (Some d))) = 200%nat)
  ∧ ((∀ c, c ∈ collection d "comment" → c !! "ticket_id" ≠ Some (VStr ticket_id)) →
     fst (list_comments isoformat ticket_id (Some d)) = Return []).
Proof.
  intros Hids. rewrite list_comments_connected by done.
  split_and!; [done..|].
  intros Hnone. simpl. f_equal.
  induction (collection d "comment") as [|c l IH]; [done|].
  rewrite filter_cons_False by (apply Hnone; left).
  apply IH.
  - by apply Forall_inv_tail in Hids.
  - intros c' Hc'. apply Hnone. by right.
Qed.

(** X9: for an existing ticket, [GET /api/tickets/{id}] and
    [GET /api/tickets/{id}/comments] under the same path return the same
    comments: the second lists those whose [ticket_id] is the path string
    in insertion order, the first embeds a rearrangement of that list that
    is in ascending order of [created_at]. *)
Theorem get_ticket_comments_rearrange_list_comments
    (isoformat : ascii → Z → string) (ticket_id : string) (o : N)
    (d : Database) (t : dict) :
  ObjectId ticket_id = Some (VObjectId o) →
  ticket_at (collection d "ticket") o t →
  Forall has_id (collection d "comment") →
  ∃ doc embedded,
    get_ticket isoformat ticket_id (Some d)
    = (Return (doc, as_json isoformat <$> embedded), Some d)
    ∧ list_comments isoformat ticket_id (Some d)
      = (Return (as_json isoformat <$>
                   filter (λ c : dict, c !! "ticket_id" = Some (VStr ticket_id))
                     (collection d "comment")),
         Some d)
    ∧ embedded ≡ₚ filter (λ c : dict, c !! "ticket_id" = Some (VStr ticket_id))
                    (collection d "comment")
    ∧ Sorted (field_le "created_at") embedded.
Proof.
  intros Hid Ht Hids. eexists _, _. split_and!.
  - by apply get_ticket_found with o.
  - by apply list_comments_connected.
  - unfold sort_ascending. by rewrite merge_sort_Permutation, find_singleton.
  - apply Sorted_merge_sort, _.
Qed.

(** X10: after [POST /api/tickets/{id}/comments] succeeded for an existing
    ticket, [GET /api/tickets/{id}/comments] under the same path returns
    the former list followed by the new comment, and under any other path
    string it returns what it returned before. *)
Theorem add_comment_then_list_comments (isoformat : ascii → Z → string)
    (ticket_id : string) (o : N) (payload : Comment.model) (now : Z)
    (d : Database) :
  ObjectId ticket_id = Some (VObjectId o) →
  (∃ t, t ∈ collection d "ticket" ∧ t !! "_id" = Some (VObjectId o)) →
  Forall has_id (collection d "comment") →
  ∃ d' before,
    snd (add_comment ticket_id payload now (Some d)) = Some d'
    ∧ fst (list_comments isoformat ticket_id (Some d)) = Return before
    ∧ fst (list_comments isoformat ticket_id (Some d'))
      = Return (before
                ++ [as_json isoformat
                      (stored_comment ticket_id payload now (next_id d))])%list
    ∧ (∀ other, other ≠ ticket_id →
         fst (list_comments isoformat other (Some d'))
         = fst (list_comments isoformat other (Some d))).
Proof.
  intros Hid Hsome Hids. eexists _, _.
  rewrite (add_comment_found _ _ _ _ _ Hid Hsome). cbn [snd].
  split; [done|].
  assert (Forall has_id
            (collection d "comment"
             ++ [stored_comment ticket_id payload now (next_id d)])%list) as Hids'.
  { apply Forall_app. split; [done|]. repeat constructor. by eexists. }
  split_and!.
  - by rewrite list_comments_connected.
  - rewrite list_comments_connected by by rewrite collection_insert_eq.
    rewrite collection_insert_eq. cbn [fst]. f_equal.
    rewrite filter_app, fmap_app. f_equal.
    by rewrite filter_cons_True by reflexivity.
  - intros other Hother.
    rewrite !list_comments_connected by (by rewrite ?collection_insert_eq).
    rewrite collection_insert_eq. cbn [fst]. do 2 f_equal.
    rewrite filter_app, filter_cons_False, filter_nil, app_nil_r; [done|].
    unfold stored_comment. simplify_map_eq. congruence.
Qed.

(** ** The conversion of a document for the response *)

Lemma isoformat_field_lookup_eq (isoformat : ascii → Z → string) (key : string)
    (d : dict) :
  isoformat_field isoformat key d !! key
  = match d !! key with
    | Some (VDatetime t) => Some (VStr (isoformat "T"%char t))
    | other => other
    end.
Proof.
  unfold isoformat_field.
  destruct (d !! key) as [[]|] eqn:Hk; try done. apply lookup_insert_eq.
Qed.

(** X11: the conversion applied to every returned document fails with
    [KeyError] when the document has no [_id]; otherwise the result has no
    [_id], carries [id] as the string of the former [_id], renders a
    [created_at] or [updated_at] that is a date as its ISO string and
    leaves one that is not a date alone, and keeps every other field. *)
Theorem convert_renames_id_and_renders_dates (isoformat : ascii → Z → string)
    (d : dict) :
  (d !! "_id" = None → convert isoformat d = Raise (KeyError "_id"))
  ∧ (∀ v, d !! "_id" = Some v →
       ∃ r, convert isoformat d = Return r
            ∧ r !! "_id" = None
            ∧ r !! "id" = Some (VStr (py_str isoformat v))
            ∧ (∀ k, k ∈ ["created_at"; "updated_at"] →
                 r !! k = match d !! k with
                          | Some (VDatetime t) => Some (VStr (isoformat "T"%char t))
                          | other => other
                          end)
            ∧ (∀ k, k ∉ ["_id"; "id"; "created_at"; "updated_at"] →
                 r !! k = d !! k)).
Proof.
  split.
  - intros Hnone. unfold convert, pop. by rewrite Hnone.
  - intros v Hv. exists (as_json isoformat d).
    split; [apply convert_has_id; by exists v|].
    unfold as_json. rewrite Hv. cbn [default from_option]. unfold id.
    split_and!.
    + rewrite !isoformat_field_lookup_ne by done.
      rewrite lookup_insert_ne by done. apply lookup_delete_eq.
    + rewrite !isoformat_field_lookup_ne by done. apply lookup_insert_eq.
    + intros k Hk. rewrite !elem_of_cons in Hk.
      destruct Hk as [->|[->|Hk%elem_of_nil]]; [| |done].
      * rewrite isoformat_field_lookup_ne, isoformat_field_lookup_eq by done.
        rewrite lookup_insert_ne by done. by rewrite lookup_delete_ne.
      * rewrite isoformat_field_lookup_eq, isoformat_field_lookup_ne by done.
        rewrite lookup_insert_ne by done. by rewrite lookup_delete_ne.
    + intros k Hk. rewrite !not_elem_of_cons in Hk.
      destruct Hk as (? & ? & ? & ? & _).
      rewrite !isoformat_field_lookup_ne by done.
      rewrite lookup_insert_ne by done. by rewrite lookup_delete_ne.
Qed.

(** ** The validators of [schemas.py] *)

(** X12: what [Ticket] accepts and rejects.  A validated ticket has a
    title of 3 to 200 characters, a description of at least 5, and the
    address that [EmailStr] validated; a body is rejected when its title or
    description is missing, not a string or of the wrong length, when its
    email is missing or not accepted by [EmailStr], when its category is
    missing or not a string, and when a priority or status is given that is
    not one of the literals. *)
Theorem Ticket_accepts_and_rejects (EmailStr : string → option string) (b : body) :
  (∀ p, Ticket.validate EmailStr b = Some p →
        (3 ≤ len (Ticket.title p) ≤ 200)%nat
        ∧ (5 ≤ len (Ticket.description p))%nat
        ∧ ∃ s, b !! "requester_email" = Some (JString s)
               ∧ EmailStr s = Some (Ticket.requester_email p))
  ∧ ((∀ s, b !! "title" = Some (JString s) →
           (len s < 3 ∨ 200 < len s)%nat) →
     Ticket.validate EmailStr b = None)
  ∧ ((∀ s, b !! "description" = Some (JString s) → (len s < 5)%nat) →
     Ticket.validate EmailStr b = None)
  ∧ ((∀ s, b !! "requester_email" = Some (JString s) → EmailStr s = None) →
     Ticket.validate EmailStr b = None)
  ∧ ((∀ s, b !! "category" ≠ Some (JString s)) →
     Ticket.validate EmailStr b = None)
  ∧ (∀ j, b !! "priority" = Some j → (∀ p, j ≠ JString (Priority_str p)) →
          Ticket.validate EmailStr b = None)
  ∧ (∀ j, b !! "status" = Some j → (∀ s, j ≠ JString (Status_str s)) →
          Ticket.validate EmailStr b = None).
Proof.
  split.
  { intros p Hvalid.
    destruct (Ticket_validate_constraints _ _ _ Hvalid) as [Ht Hd].
    destruct (Ticket_validate_fields _ _ _ Hvalid) as (_ & _ & He & _).
    done. }
  split_and!; intros.
  all: destruct (Ticket.validate EmailStr b) as [p|] eqn:Hvalid; [exfalso|done].
  all: destruct (Ticket_validate_constraints _ _ _ Hvalid) as [Ht Hd].
  all: destruct (Ticket_validate_fields _ _ _ Hvalid)
         as (Hbt & Hbd & (e & Hbe & He) & Hbc & Hbp & Hbs & _).
  - specialize (H _ Hbt). lia.
  - specialize (H _ Hbd). lia.
  - specialize (H _ Hbe). congruence.
  - by apply (H (Ticket.category p)).
  - rewrite H in Hbp. by apply (H0 (Ticket.priority p)).
  - rewrite H in Hbs. by apply (H0 (Ticket.status p)).
Qed.

Lemma dump_field_lookup {T} (str : T → string) (key : string) (f : field T)
    (d : dict) (k : string) (v : value) :
  dump_field str key f d !! k = Some v →
  (k = key ∧ ∃ o, f = Given o ∧ v = dump_optional (str <$> o)) ∨ d !! k = Some v.
Proof.
  destruct f as [|o]; simpl; [by right|].
  destruct (decide (key = k)) as [->|Hne].
  - rewrite lookup_insert_eq. intros [= <-]. left. eauto.
  - rewrite lookup_insert_ne by done. by right.
Qed.

(** X13: what a PATCH can write.  The fields that
    [model_dump(exclude_unset=True)] yields are among the seven fields of
    [TicketUpdate]; each value is [None] or a string, and a priority or
    status that is set is [None] or one of its literals.  In particular no
    update carries [_id], [created_at] or a field of its own invention. *)
Theorem update_writes_model_fields_only (u : TicketUpdate.model) (k : string)
    (v : value) :
  TicketUpdate.model_dump_exclude_unset u !! k = Some v →
  k ∈ ["title"; "description"; "requester_email"; "category"; "priority";
       "status"; "assignee"]
  ∧ (v = VNone ∨ ∃ s, v = VStr s)
  ∧ (k = "priority" →
     v ∈ [VNone; VStr "low"; VStr "medium"; VStr "high"; VStr "urgent"])
  ∧ (k = "status" →
     v ∈ [VNone; VStr "open"; VStr "in_progress"; VStr "resolved"; VStr "closed"]).
Proof.
  unfold TicketUpdate.model_dump_exclude_unset.
  intros H.
  repeat (apply dump_field_lookup in H as [(-> & o & _ & ->)|H]).
  8: by rewrite lookup_empty in H.
  all: split; [set_solver|].
  all: split; [destruct o; simpl; eauto|].
  all: split; intros Hk; try discriminate Hk.
  - destruct o as [[]|]; simpl; set_solver.
  - destruct o as [[]|]; simpl; set_solver.
Qed.

Lemma update_writes_model_fields_only_witness :
  TicketUpdate.model_dump_exclude_unset (status_update resolved) !! "status"
  = Some (VStr "resolved")
  ∧ "status" ∈ ["title"; "description"; "requester_email"; "category";
                 "priority"; "status"; "assignee"].
Proof.
  split; [reflexivity|].
  exact (proj1 (update_writes_model_fields_only (status_update resolved)
                  "status" (VStr "resolved") eq_refl)).
Defined.

(** X14: what [Comment] accepts and rejects.  A validated comment repeats
    the three strings of the body and its text is not empty; a body without
    [ticket_id] is rejected although the handler then ignores that field,
    and so is a body whose text is empty or whose author is missing. *)
Theorem Comment_accepts_and_rejects (b : gmap string json) :
  (∀ p, Comment.validate b = Some p →
        b !! "ticket_id" = Some (JString (Comment.ticket_id p))
        ∧ b !! "author" = Some (JString (Comment.author p))
        ∧ b !! "body" = Some (JString (Comment.body p))
        ∧ (1 ≤ len (Comment.body p))%nat
        ∧ (1 ≤ String.length (Comment.body p))%nat)
  ∧ ((∀ s, b !! "ticket_id" ≠ Some (JString s)) → Comment.validate b = None)
  ∧ ((∀ s, b !! "author" ≠ Some (JString s)) → Comment.validate b = None)
  ∧ ((∀ s, b !! "body" = Some (JString s) → s = "") → Comment.validate b = None).
Proof.
  assert (∀ p, Comment.validate b = Some p →
        b !! "ticket_id" = Some (JString (Comment.ticket_id p))
        ∧ b !! "author" = Some (JString (Comment.author p))
        ∧ b !! "body" = Some (JString (Comment.body p))
        ∧ (1 ≤ len (Comment.body p))%nat) as Hsound.
  { intros p. unfold Comment.validate, required.
    destruct (b !! "ticket_id") as [[| | |t]|]; try done.
    destruct (b !! "author") as [[| | |a]|]; try done.
    destruct (b !! "body") as [[| | |c]|]; try done. simpl.
    destruct (constrained_str 1 None c) as [c'|] eqn:Hc; [|done].
    apply constrained_str_eq in Hc as Heq. subst c'.
    apply constrained_str_bounds in Hc as [Hc _].
    by intros [= <-]. }
  split.
  { intros p Hp. destruct (Hsound p Hp) as (Ht & Ha & Hb & Hlen).
    split_and!; [done..|].
    pose proof (len_le_length (Comment.body p)). lia. }
  split_and!; intros H.
  all: destruct (Comment.validate b) as [p|] eqn:Hvalid; [exfalso|done].
  all: destruct (Hsound p eq_refl) as (Ht & Ha & Hb & Hlen).
  - by apply (H (Comment.ticket_id p)).
  - by apply (H (Comment.author p)).
  - rewrite (H _ Hb) in Hlen. simpl in Hlen. lia.
Qed.

(** ** Creating a ticket, then listing *)

Lemma create_ticket_state (payload : Ticket.model) (now : Z) (d : Database) :
  create_ticket payload now (Some d)
  = (Return {[ "id" := VStr (str_oid (next_id d)) ]},
     Some {| collections :=
               <["ticket" :=
                   (collection d "ticket"
                    ++ [stored_ticket payload now (next_id d)])%list]>
                 (collections d);
             next_id := N.succ (next_id d) |}).
Proof. reflexivity. Qed.

(** X15: after [POST /api/tickets] on a connected store,
    [GET /api/tickets] with any query returns what it returned before,
    followed by the new ticket exactly when the status and priority of the
    payload pass the filters of the query. *)
Theorem create_ticket_then_list_tickets (isoformat : ascii → Z → string)
    (payload : Ticket.model) (now : Z) (status priority : option string)
    (d : Database) :
  Forall has_id (collection d "ticket") →
  ∃ d' before,
    snd (create_ticket payload now (Some d)) = Some d'
    ∧ fst (list_tickets isoformat status priority (Some d)) = Return before
    ∧ fst (list_tickets isoformat status priority (Some d'))
      = Return
          (before
           ++ if decide (field_is "status" status
                           {[ "status" := VStr (Status_str (Ticket.status payload)) ]}
                         ∧ field_is "priority" priority
                             {[ "priority" :=
                                  VStr (Priority_str (Ticket.priority payload)) ]})
              then [as_json isoformat (stored_ticket payload now (next_id d))]
              else [])%list.
Proof.
  intros Hids. eexists _, _. rewrite create_ticket_state. cbn [snd].
  split; [done|].
  assert (∀ d0, Forall has_id (collection d0 "ticket") →
    fst (list_tickets isoformat status priority (Some d0))
    = Return (as_json isoformat <$>
                filter (selected status priority) (collection d0 "ticket")))
    as Hlist.
  { intros d0 Hd0.
    unfold list_tickets, except_Exception, bind, get_documents, lift.
    cbn zeta. rewrite find_selected.
    rewrite for_each_convert; [done|].
    rewrite <- find_selected. by apply has_id_find. }
  split; [by apply Hlist|].
  rewrite Hlist.
  - rewrite collection_insert_eq, filter_app, fmap_app. do 2 f_equal.
    assert (selected status priority (stored_ticket payload now (next_id d))
            ↔ field_is "status" status
                {[ "status" := VStr (Status_str (Ticket.status payload)) ]}
              ∧ field_is "priority" priority
                  {[ "priority" := VStr (Priority_str (Ticket.priority payload)) ]})
      as Hsel.
    { unfold selected, field_is.
      by destruct status as [[|? ?]|], priority as [[|? ?]|]. }
    destruct (decide (field_is "status" status _ ∧ _)) as [Hyes|Hno].
    + by rewrite filter_cons_True by by apply Hsel.
    + by rewrite filter_cons_False by by rewrite Hsel.
  - rewrite collection_insert_eq. apply Forall_app. split; [done|].
    repeat constructor. by eexists.
Qed.

(** ** Comments never lose their ticket *)

Lemma list_tickets_state (isoformat : ascii → Z → string)
    (status priority : option string) (st : Store) :
  snd (list_tickets isoformat status priority st) = st.
Proof.
  unfold list_tickets, except_Exception, bind, get_documents, lift. cbn zeta.
  destruct st as [d|]; [|done]. by destruct (for_each _ _).
Qed.

Lemma list_comments_state (isoformat : ascii → Z → string) (ticket_id : string)
    (st : Store) :
  snd (list_comments isoformat ticket_id st) = st.
Proof.
  unfold list_comments, except_Exception, bind, get_documents, lift.
  destruct st as [d|]; [|done]. by destruct (for_each _ _).
Qed.

Lemma no_orphans_step (d d' : Database) :
  no_orphans d →
  (∀ v, v ∈ (λ t : dict, t !! "_id") <$> collection d "ticket" →
        v ∈ (λ t : dict, t !! "_id") <$> collection d' "ticket") →
  (∀ c, c ∈ collection d' "comment" →
        c ∈ collection d "comment"
        ∨ ∃ s o t, c !! "ticket_id" = Some (VStr s) ∧ ObjectId s = Some (VObjectId o)
                   ∧ t ∈ collection d "ticket" ∧ t !! "_id" = Some (VObjectId o)) →
  no_orphans d'.
Proof.
  intros Hd Htickets Hcomments c Hc.
  destruct (Hcomments c Hc) as [Hold|Hnew].
  - destruct (Hd c Hold) as (s & o & t & Hs & Ho & Ht & Hid).
    assert (Some (VObjectId o) ∈ (λ t : dict, t !! "_id") <$> collection d' "ticket")
      as (t' & Hid' & Ht')%list_elem_of_fmap.
    { apply Htickets, list_elem_of_fmap. by exists t. }
    by exists s, o, t'.
  - destruct Hnew as (s & o & t & Hs & Ho & Ht & Hid).
    assert (Some (VObjectId o) ∈ (λ t : dict, t !! "_id") <$> collection d' "ticket")
      as (t' & Hid' & Ht')%list_elem_of_fmap.
    { apply Htickets, list_elem_of_fmap. by exists t. }
    by exists s, o, t'.
Qed.

Lemma serve_no_orphans (EmailStr : string → option string)
    (isoformat : ascii → Z → string) (r : request) (now : Z) (d : Database) :
  well_formed d →
  no_orphans d →
  ∃ d', snd (serve EmailStr isoformat r now (Some d)) = Some d' ∧ no_orphans d'.
Proof.
  intros Hwf Hd. destruct r as [b|s p|id|id b|id b|id]; simpl.
  - destruct (Ticket.validate EmailStr b) as [payload|]; [|by exists d].
    rewrite create_ticket_state. eexists. split; [done|].
    apply (no_orphans_step d); [done| |].
    + intros v Hv. rewrite collection_insert_eq, fmap_app.
      apply elem_of_app. by left.
    + intros c Hc. left.
      by rewrite (collection_insert_ne _ _ _ _ _ (next_id d)) in Hc
        by done; destruct d.
  - rewrite list_tickets_state. by exists d.
  - rewrite get_ticket_state. by exists d.
  - destruct (TicketUpdate.validate EmailStr b) as [updates|]; [|by exists d].
    destruct (update_ticket_state isoformat id updates now d)
      as (d' & Hrun & Hids & _ & Hother & _).
    exists d'. split; [done|].
    apply (no_orphans_step d); [done| |].
    + intros v Hv. by rewrite Hids.
    + intros c Hc. left. by rewrite Hother in Hc.
  - destruct (Comment.validate b) as [payload|]; [|by exists d].
    destruct (add_comment_state id payload now d)
      as [Hsame|(v & t & Hid & Ht & Hto & Hrun)].
    + exists d. by split.
    + eexists. split; [exact Hrun|].
      destruct (Hwf "ticket" t Ht) as (o & Ho & _).
      assert (v = VObjectId o) as -> by congruence.
      apply (no_orphans_step d); [done| |].
      * intros v Hv.
        by rewrite (collection_insert_ne _ _ _ _ _ (next_id d)) by done;
          destruct d.
      * intros c. rewrite collection_insert_eq.
        intros [Hc| ->%list_elem_of_singleton]%elem_of_app; [by left|].
        right. exists id, o, t. split_and!; [reflexivity|done..].
  - rewrite list_comments_state. by exists d.
Qed.

(** X16: comments never lose their ticket.  In every store reached from
    the empty connected store by any sequence of requests, each stored
    comment carries a [ticket_id] string that parses as an ObjectId and is
    the [_id] of a ticket in the store: comments are created only after the
    lookup succeeded, and no request removes a ticket or changes its
    [_id]. *)
Theorem reachable_comments_reference_tickets (EmailStr : string → option string)
    (isoformat : ascii → Z → string) (trace : list (request * Z)) :
  ∃ d, serve_all EmailStr isoformat trace empty_store = Some d ∧ no_orphans d.
Proof.
  assert (no_orphans empty_database) as Hempty.
  { intros c Hc. unfold collection, empty_database in Hc. simpl in Hc.
    rewrite lookup_empty in Hc. by apply elem_of_nil in Hc. }
  unfold empty_store. revert Hempty. generalize well_formed_empty.
  generalize empty_database.
  induction trace as [|[r now] trace IH]; intros d Hwf Hd; simpl.
  - by exists d.
  - destruct (serve_no_orphans EmailStr isoformat r now d Hwf Hd)
      as (d' & Hrun & Hd').
    destruct (serve_well_formed EmailStr isoformat r now d Hwf)
      as (d'' & Hrun' & Hwf').
    rewrite Hrun in Hrun'. injection Hrun' as <-. rewrite Hrun.
    by apply IH.
Qed.

(** ** A PATCH, then a GET or the same PATCH again *)

Lemma ticket_at_updated (d : Database) (before after : list dict) (o : N)
    (t' : dict) :
  t' !! "_id" = Some (VObjectId o) →
  Forall (λ x, x !! "_id" ≠ Some (VObjectId o)) before →
  ticket_at
    (collection
       {| collections := <["ticket" := (before ++ t' :: after)%list]> (collections d);
          next_id := next_id d |} "ticket") o t'.
Proof.
  intros Ht' Hbefore. rewrite collection_insert_eq. by exists before, after.
Qed.

Lemma set_fields_keeps_id (updates : TicketUpdate.model) (now : Z) (t : dict) :
  set_fields (<["updated_at" := VDatetime now]>
                (TicketUpdate.model_dump_exclude_unset updates)) t !! "_id"
  = t !! "_id".
Proof.
  unfold set_fields. apply lookup_union_r.
  rewrite lookup_insert_ne by done. apply model_dump_exclude_unset_no_id.
Qed.

(** X17: the document that a successful PATCH returns is the ticket that
    [GET /api/tickets/{id}] returns right after it, under the same path. *)
Theorem update_ticket_then_get_ticket (isoformat : ascii → Z → string)
    (ticket_id : string) (o : N) (updates : TicketUpdate.model) (now : Z)
    (d : Database) (t : dict) :
  TicketUpdate.model_dump_exclude_unset updates ≠ ∅ →
  ObjectId ticket_id = Some (VObjectId o) →
  ticket_at (collection d "ticket") o t →
  Forall has_id (collection d "comment") →
  ∃ doc d' comments,
    update_ticket isoformat ticket_id updates now (Some d) = (Return doc, Some d')
    ∧ get_ticket isoformat ticket_id (Some d') = (Return (doc, comments), Some d').
Proof.
  intros Hset Hid (before & after & Hcoll & Ht & Hbefore) Hids.
  eexists _, _, _.
  rewrite (update_ticket_found _ _ o _ _ _ before after t) by done.
  split; [done|].
  apply (get_ticket_found _ _ o); [done| |].
  - apply ticket_at_updated; [|done]. by rewrite set_fields_keeps_id.
  - rewrite (collection_insert_ne _ _ _ _ _ (next_id d)) by done. by destruct d.
Qed.

(** X18: a PATCH is idempotent at a fixed clock reading: sending the same
    body again, served at the same clock value, returns the same document
    and leaves the store as the first PATCH left it. *)
Theorem update_ticket_twice (isoformat : ascii → Z → string)
    (ticket_id : string) (o : N) (updates : TicketUpdate.model) (now : Z)
    (d : Database) (t : dict) :
  TicketUpdate.model_dump_exclude_unset updates ≠ ∅ →
  ObjectId ticket_id = Some (VObjectId o) →
  ticket_at (collection d "ticket") o t →
  ∃ doc d',
    update_ticket isoformat ticket_id updates now (Some d) = (Return doc, Some d')
    ∧ update_ticket isoformat ticket_id updates now (Some d') = (Return doc, Some d').
Proof.
  intros Hset Hid (before & after & Hcoll & Ht & Hbefore).
  eexists _, _.
  rewrite (update_ticket_found _ _ o _ _ _ before after t) by done.
  split; [done|].
  rewrite (update_ticket_found _ _ o _ _ _ before after
             (set_fields (<["updated_at" := VDatetime now]>
                            (TicketUpdate.model_dump_exclude_unset updates)) t));
    [| done | done | apply collection_insert_eq
     | by rewrite set_fields_keeps_id | done ].
  cbn zeta. unfold set_fields.
  rewrite (assoc_L (∪)), (idemp_L (∪)). cbn [collections next_id].
  by rewrite insert_insert_eq.
Qed.

(** ** The further properties at concrete inputs *)

Lemma status_update_sets_a_field (s : Status) :
  TicketUpdate.model_dump_exclude_unset (status_update s) ≠ ∅.
Proof.
  intros Hempty. apply (f_equal (λ m : dict, m !! "status")) in Hempty.
  discriminate Hempty.
Qed.

Lemma one_ticket_no_comments :
  Forall has_id (collection Sample.one_ticket "comment").
Proof. constructor. Qed.

Lemma one_ticket_other_id :
  ∀ t, t ∈ collection Sample.one_ticket "ticket" → t !! "_id" ≠ Some (VObjectId 1).
Proof.
  intros t Ht. change (collection Sample.one_ticket "ticket")
    with [Sample.stored_printer] in Ht.
  apply list_elem_of_singleton in Ht as ->. discriminate.
Qed.

Lemma one_ticket_present :
  ∃ t, t ∈ collection Sample.one_ticket "ticket" ∧ t !! "_id" = Some (VObjectId 0).
Proof. exists Sample.stored_printer. split; [left|reflexivity]. Qed.

Lemma well_formed_one_ticket : well_formed Sample.one_ticket.
Proof.
  intros name doc Hdoc. unfold collection, Sample.one_ticket in Hdoc.
  simpl in Hdoc. destruct (decide (name = "ticket")) as [->|Hname].
  - rewrite lookup_singleton_eq in Hdoc. simpl in Hdoc.
    apply list_elem_of_singleton in Hdoc as ->. exists 0. split; reflexivity.
  - rewrite lookup_singleton_ne in Hdoc by done. by apply elem_of_nil in Hdoc.
Qed.

Lemma get_ticket_outcomes_witness :
  Forall has_id (collection Sample.one_ticket "comment")
  ∧ ObjectId "00 00 00 00 00 00 00 00 " = Some (VObjectIdShort 8 0)
  ∧ status_code (fst (get_ticket Sample.isoformat "00 00 00 00 00 00 00 00 "
                        (Some Sample.one_ticket)))
    = 404%nat.
Proof.
  split; [exact one_ticket_no_comments|]. split; [reflexivity|].
  destruct (get_ticket_outcomes Sample.isoformat "00 00 00 00 00 00 00 00 "
              Sample.one_ticket one_ticket_no_comments)
    as (_ & _ & _ & Hshort & _).
  exact (Hshort 8%nat 0 eq_refl well_formed_one_ticket).
Defined.

(** Lengths are counted in characters, not in bytes: the title [éé] has
    two characters in four bytes and is rejected, and a title of 101 times
    [é], 202 bytes, is accepted. *)
Lemma Ticket_accepts_and_rejects_witness :
  len "éé" = 2%nat
  ∧ String.length "éé" = 4%nat
  ∧ Ticket.validate Sample.EmailStr (<["title" := JString "éé"]> Sample.printer)
    = None
  ∧ String.length (Sample.copies 101 "é") = 202%nat
  ∧ Ticket.title <$>
      Ticket.validate Sample.EmailStr
        (<["title" := JString (Sample.copies 101 "é")]> Sample.printer)
    = Some (Sample.copies 101 "é").
Proof.
  split; [reflexivity|]. split; [reflexivity|].
  split; [|split; vm_compute; reflexivity].
  apply (proj1 (proj2 (Ticket_accepts_and_rejects Sample.EmailStr
                         (<["title" := JString "éé"]> Sample.printer)))).
  intros s Hs. vm_compute in Hs. injection Hs as <-. left. vm_compute. lia.
Defined.

Lemma update_ticket_unknown_id_witness :
  ObjectId "000000000000000000000001" = Some (VObjectId 1)
  ∧ update_ticket Sample.isoformat "000000000000000000000001"
      (status_update resolved) 9 (Some Sample.one_ticket)
    = (Raise (HTTPException 404 "Ticket not found"), Some Sample.one_ticket).
Proof.
  split; [reflexivity|].
  exact (update_ticket_unknown_id Sample.isoformat "000000000000000000000001" 1
           (status_update resolved) 9 Sample.one_ticket
           (status_update_sets_a_field resolved) eq_refl one_ticket_other_id).
Defined.

Lemma update_ticket_partial_update_witness :
  ObjectId "000000000000000000000000" = Some (VObjectId 0)
  ∧ ∃ t' d',
      update_ticket Sample.isoformat "000000000000000000000000"
        (status_update closed) 9 (Some Sample.one_ticket)
      = (Return (as_json Sample.isoformat t'), Some d')
      ∧ t' !! "created_at" = Sample.stored_printer !! "created_at".
Proof.
  split; [reflexivity|].
  destruct (update_ticket_partial_update Sample.isoformat
              "000000000000000000000000" 0 (status_update closed) 9
              Sample.one_ticket Sample.stored_printer
              (status_update_sets_a_field closed) eq_refl one_ticket_at)
    as (t' & d' & before & after & Hrun & _ & _ & _ & _ & _ & _ & _ & _ & Hcreated).
  exists t', d'. split; [exact Hrun|exact Hcreated].
Defined.

Lemma list_comments_by_path_string_witness :
  Forall has_id (collection Sample.one_ticket "comment")
  ∧ status_code (fst (list_comments Sample.isoformat "not-an-id"
                        (Some Sample.one_ticket)))
    = 200%nat.
Proof.
  split; [exact one_ticket_no_comments|].
  exact (proj1 (proj2 (list_comments_by_path_string Sample.isoformat "not-an-id"
                         Sample.one_ticket one_ticket_no_comments)) eq_refl).
Defined.

Lemma get_ticket_comments_rearrange_list_comments_witness :
  ObjectId "000000000000000000000000" = Some (VObjectId 0)
  ∧ ∃ doc embedded,
      get_ticket Sample.isoformat "000000000000000000000000"
        (Some Sample.two_notes)
      = (Return (doc, as_json Sample.isoformat <$> embedded),
         Some Sample.two_notes)
      ∧ embedded ≡ₚ [Sample.late_note; Sample.early_note]
      ∧ Sorted (field_le "created_at") embedded.
Proof.
  split; [reflexivity|].
  destruct (get_ticket_comments_rearrange_list_comments Sample.isoformat
              "000000000000000000000000" 0 Sample.two_notes
              Sample.stored_printer eq_refl two_notes_at two_notes_have_id)
    as (doc & embedded & Hget & _ & Hperm & Hsorted).
  exists doc, embedded. split; [exact Hget|]. split; [exact Hperm|exact Hsorted].
Defined.

Lemma add_comment_then_list_comments_witness :
  ObjectId "000000000000000000000000" = Some (VObjectId 0)
  ∧ ∃ d',
      snd (add_comment "000000000000000000000000" Sample.note_comment 7
             (Some Sample.one_ticket)) = Some d'
      ∧ fst (list_comments Sample.isoformat "000000000000000000000000" (Some d'))
        = Return [as_json Sample.isoformat
                    (stored_comment "000000000000000000000000"
                       Sample.note_comment 7 1)].
Proof.
  split; [reflexivity|].
  destruct (add_comment_then_list_comments Sample.isoformat
              "000000000000000000000000" 0 Sample.note_comment 7
              Sample.one_ticket eq_refl one_ticket_present one_ticket_no_comments)
    as (d' & before & Hadd & Hbefore & Hafter & _).
  exists d'. split; [exact Hadd|].
  rewrite Hafter. injection Hbefore as <-. reflexivity.
Defined.

Lemma create_ticket_then_list_tickets_witness :
  Forall has_id (collection Sample.one_ticket "ticket")
  ∧ ∃ d' before,
      snd (create_ticket Sample.printer_ticket 8 (Some Sample.one_ticket)) = Some d'
      ∧ fst (list_tickets Sample.isoformat (Some "closed") None
               (Some Sample.one_ticket)) = Return before
      ∧ fst (list_tickets Sample.isoformat (Some "closed") None (Some d'))
        = Return before.
Proof.
  split; [exact one_ticket_has_id|].
  destruct (create_ticket_then_list_tickets Sample.isoformat
              Sample.printer_ticket 8 (Some "closed") None Sample.one_ticket
              one_ticket_has_id)
    as (d' & before & Hcreate & Hbefore & Hafter).
  exists d', before. split; [exact Hcreate|]. split; [exact Hbefore|].
  rewrite Hafter. rewrite decide_False.
  - by rewrite app_nil_r.
  - intros [Hstatus _]. discriminate Hstatus.
Defined.

Lemma update_ticket_then_get_ticket_witness :
  ObjectId "000000000000000000000000" = Some (VObjectId 0)
  ∧ ∃ doc d' comments,
      update_ticket Sample.isoformat "000000000000000000000000"
        (status_update in_progress) 9 (Some Sample.one_ticket)
      = (Return doc, Some d')
      ∧ get_ticket Sample.isoformat "000000000000000000000000" (Some d')
        = (Return (doc, comments), Some d').
Proof.
  split; [reflexivity|].
  exact (update_ticket_then_get_ticket Sample.isoformat
           "000000000000000000000000" 0 (status_update in_progress) 9
           Sample.one_ticket Sample.stored_printer
           (status_update_sets_a_field in_progress) eq_refl one_ticket_at
           one_ticket_no_comments).
Defined.

Lemma update_ticket_twice_witness :
  ObjectId "000000000000000000000000" = Some (VObjectId 0)
  ∧ ∃ doc d',
      update_ticket Sample.isoformat "000000000000000000000000"
        (status_update in_progress) 9 (Some Sample.one_ticket)
      = (Return doc, Some d')
      ∧ update_ticket Sample.isoformat "000000000000000000000000"
          (status_update in_progress) 9 (Some d')
        = (Return doc, Some d').
Proof.
  split; [reflexivity|].
  exact (update_ticket_twice Sample.isoformat "000000000000000000000000" 0
           (status_update in_progress) 9 Sample.one_ticket Sample.stored_printer
           (status_update_sets_a_field in_progress) eq_refl one_ticket_at).
Defined.
